(** * Layout switcher ([examples/switch_layout.py])

    A shallow embedding of the command-line layout switcher and the
    properties its specification states about it.

    The script is a sequence of prints, existence checks, one JSON load
    and file copies, interrupted by [sys.exit].  It is embedded in a
    state-and-exception monad over a [world] made of the file store, the
    Python heap (which holds the decoded configuration object) and the
    chronological trace of observable events.

    What the embedding takes from outside the script is a parameter:
    [pathlib]'s [parent] and [/], [json.load], the rendering of
    non-string values in f-strings and the [repr] of a path are the
    fields of [Runtime]; whether [shutil.copy2] fails on a pair of
    paths, and what it leaves behind, is part of the world.  Every entry
    of the file store is a regular file that can be read.

    A Python [str] is modelled by its UTF-8 encoding, one [ascii] per
    byte.  [lower] maps the letters [A]-[Z] only: it is [str.lower] on
    the strings whose bytes are all below 128 ([ascii_text]), and the
    statements that depend on the lowercase form of an arbitrary
    argument are stated for such strings. *)

From Stdlib Require Import ZArith Ascii String List.
From Stdlib.Strings Require Import Byte.
From stdpp Require Import base gmap strings list.
Import ListNotations.
Local Open Scope string_scope.
Set Warnings "-register-all".

(** ** Data model *)

(** A path names a file of the store; two paths are equal exactly when
    they name the same file ([os.path.samefile]). *)
Abbreviation path := string.

(** Values produced by [json.load].  An object is a Python [dict]: its
    members are kept in insertion order. *)
Inductive json : Type :=
| JNull
| JBool (b : bool)
| JNum (literal : string)
| JStr (s : string)
| JArr (items : list json)
| JObj (members : list (string * json)).

(** The exceptions the script can meet.  [SystemExit] is the only one
    that is not a subclass of [Exception]. *)
Inductive exn : Type :=
| SystemExit (code : Z)
| FileNotFoundError (msg : string)
| JSONDecodeError (msg : string)
| UnicodeDecodeError (msg : string)
| OSError (msg : string)
| SameFileError (src dst : string)
| KeyError (key : string)
| TypeError (msg : string)
| AttributeError (msg : string)
| IndexError (msg : string).

(** What [json.load] answers on bytes that are not a JSON document. *)
Inductive load_error : Type :=
| BadJSON (msg : string)
| BadEncoding (msg : string).

(** A failing [shutil.copy2]: the message of the exception, and what the
    copy left at the destination ([None]: untouched; [Some n]: the
    first [n] bytes of the source). *)
Record fault : Type := Fault { fault_msg : string; fault_written : option nat }.

Inductive event : Type :=
| Print (line : string)
| Traceback (e : exn)
| OpenRead (p : path)
| PathExists (p : path)
| Copy2 (src dst : path).

Abbreviation loc := nat.

Record world : Type := World {
  files : gmap string (list byte);
  faults : string -> string -> option fault;
  heap : list json;
  trace : list event
}.

(** Library functions and the location of the script. *)
Class Runtime : Type := {
  script_file : string;
  parent : string -> string;
  joinpath : string -> string -> string;
  json_loads : list byte -> json + load_error;
  py_repr : json -> string;
  path_repr : string -> string
}.

(** ** The monad of Python statements *)

Definition M (A : Type) : Type := world -> (A + exn) * world.

Definition ret {A} (a : A) : M A := fun w => (inl a, w).

Definition raise {A} (e : exn) : M A := fun w => (inr e, w).

Definition bind {A B} (m : M A) (k : A -> M B) : M B :=
  fun w => match m w with
           | (inl a, w') => k a w'
           | (inr e, w') => (inr e, w')
           end.

Declare Scope py_scope.
Delimit Scope py_scope with py.
Notation "x <~ m ;; k" := (bind m (fun x => k))
  (at level 100, m at next level, right associativity) : py_scope.
Notation "m ;; k" := (bind m (fun _ => k))
  (at level 100, right associativity) : py_scope.
Local Open Scope py_scope.

(** [try: body except ...: handler]: [handler e] is [None] when no
    [except] clause matches [e], which then propagates. *)
Definition try_except {A} (body : M A) (handler : exn -> option (M A)) : M A :=
  fun w => match body w with
           | (inl a, w') => (inl a, w')
           | (inr e, w') =>
               match handler e with
               | Some h => h w'
               | None => (inr e, w')
               end
           end.

Definition is_Exception (e : exn) : bool :=
  match e with SystemExit _ => false | _ => true end.

(** [except Exception as e: h e] *)
Definition except_Exception {A} (h : exn -> M A) (e : exn) : option (M A) :=
  if is_Exception e then Some (h e) else None.

Definition when (c : bool) (m : M unit) : M unit := if c then m else ret tt.

Fixpoint for_each {A} (l : list A) (body : A -> M unit) : M unit :=
  match l with
  | [] => ret tt
  | x :: l' => body x ;; for_each l' body
  end.

(** ** Primitive operations *)

Definition emit (e : event) (w : world) : world :=
  World (files w) (faults w) (heap w) (trace w ++ [e]).

Definition set_files (f : gmap string (list byte)) (w : world) : world :=
  World f (faults w) (heap w) (trace w).

Definition print (line : string) : M unit := fun w => (inl tt, emit (Print line) w).

Definition sys_exit {A} (code : Z) : M A := raise (SystemExit code).

(** [Path.exists] *)
Definition path_exists (p : path) : M bool :=
  fun w => (inl (bool_decide (is_Some (files w !! p))), emit (PathExists p) w).

(** [open(p, 'r')] followed by reading the whole file. *)
Definition open_read (p : path) : M (list byte) :=
  fun w => match files w !! p with
           | Some b => (inl b, emit (OpenRead p) w)
           | None => (inr (FileNotFoundError p), emit (OpenRead p) w)
           end.

(** A freshly decoded object is allocated on the heap. *)
Definition alloc (v : json) : M loc :=
  fun w => (inl (length (heap w)),
            World (files w) (faults w) (heap w ++ [v]) (trace w)).

Definition deref (r : loc) : M json :=
  fun w => (inl (default JNull (heap w !! r)), w).

(** [shutil.copy2(src, dst)] *)
Definition copy2 (src dst : path) : M unit :=
  fun w =>
    let w1 := emit (Copy2 src dst) w in
    if decide (src = dst) then (inr (SameFileError src dst), w1)
    else match files w !! src with
         | None => (inr (FileNotFoundError src), w1)
         | Some b =>
             match faults w src dst with
             | None => (inl tt, set_files (<[dst := b]> (files w)) w1)
             | Some f =>
                 (inr (OSError (fault_msg f)),
                  match fault_written f with
                  | None => w1
                  | Some n => set_files (<[dst := take n b]> (files w)) w1
                  end)
             end
         end.

(** ** Python values and strings *)

Fixpoint dict_get (key : string) (m : list (string * json)) : option json :=
  match m with
  | [] => None
  | (k, v) :: m' => if String.eqb k key then Some v else dict_get key m'
  end.

(** [v[key]] for a string [key] *)
Definition subscript (v : json) (key : string) : M json :=
  match v with
  | JObj m =>
      match dict_get key m with
      | Some x => ret x
      | None => raise (KeyError key)
      end
  | JArr _ => raise (TypeError "list indices must be integers or slices, not str")
  | JStr _ => raise (TypeError "string indices must be integers, not 'str'")
  | _ => raise (TypeError "object is not subscriptable")
  end.

Definition is_JStr (s : string) (v : json) : bool :=
  match v with JStr t => String.eqb s t | _ => false end.

Definition is_substring (s t : string) : bool :=
  match index 0 s t with Some _ => true | None => false end.

(** [key in v] for a string [key] *)
Definition contains (v : json) (key : string) : M bool :=
  match v with
  | JObj m => ret (match dict_get key m with Some _ => true | None => false end)
  | JArr l => ret (existsb (is_JStr key) l)
  | JStr t => ret (is_substring key t)
  | _ => raise (TypeError "argument is not iterable")
  end.

(** [v.items()] *)
Definition items (v : json) : M (list (string * json)) :=
  match v with
  | JObj m => ret m
  | _ => raise (AttributeError "object has no attribute 'items'")
  end.

Definition lower_ascii (c : ascii) : ascii :=
  let n := nat_of_ascii c in
  if (65 <=? n)%nat && (n <=? 90)%nat then ascii_of_nat (n + 32) else c.

(** [str.lower] on ASCII text: the letters [A]-[Z] are mapped, every
    other byte is kept. *)
Fixpoint lower (s : string) : string :=
  match s with
  | EmptyString => EmptyString
  | String c s' => String (lower_ascii c) (lower s')
  end.

Fixpoint str_repeat (s : string) (n : nat) : string :=
  match n with
  | O => EmptyString
  | S n' => s ++ str_repeat s n'
  end.

Definition nl : string := String "010"%char EmptyString.

(** The strings on which [lower] is [str.lower]: no byte above 127. *)
Definition ascii_text (s : string) : bool :=
  forallb (fun c => (nat_of_ascii c <? 128)%nat) (list_ascii_of_string s).

(** A continuation byte of UTF-8: [10xxxxxx]. *)
Definition is_continuation (c : ascii) : bool :=
  let n := nat_of_ascii c in (128 <=? n)%nat && (n <? 192)%nat.

Definition starts_with_continuation (s : string) : bool :=
  match s with
  | String c _ => is_continuation c
  | EmptyString => false
  end.

(** The characters of a string, as iterating over a [str] gives them:
    each is a leading byte with the continuation bytes that follow it. *)
Fixpoint chars (s : string) : list string :=
  match s with
  | EmptyString => []
  | String c s' =>
      match chars s' with
      | p :: ps =>
          if starts_with_continuation s' then String c p :: ps
          else String c EmptyString :: p :: ps
      | [] => [String c EmptyString]
      end
  end.

Fixpoint all_strings (l : list json) : option (list string) :=
  match l with
  | [] => Some []
  | JStr s :: l' => option_map (cons s) (all_strings l')
  | _ :: _ => None
  end.

(** [sep.join(v)] *)
Definition join (sep : string) (v : json) : M string :=
  match v with
  | JArr l =>
      match all_strings l with
      | Some ss => ret (String.concat sep ss)
      | None => raise (TypeError "sequence item: expected str instance")
      end
  | JStr s => ret (String.concat sep (chars s))
  | JObj m => ret (String.concat sep (map fst m))
  | _ => raise (TypeError "can only join an iterable")
  end.

(** The text an f-string inserts for [e] in [{e}].  [shutil] builds
    the text of [SameFileError] from the [repr] of the two paths. *)
Definition exn_str `{Runtime} (e : exn) : string :=
  match e with
  | SystemExit _ => EmptyString
  | KeyError k => "'" ++ k ++ "'"
  | SameFileError src dst =>
      path_repr src ++ " and " ++ path_repr dst ++ " are the same file"
  | FileNotFoundError m | JSONDecodeError m | UnicodeDecodeError m
  | OSError m | TypeError m | AttributeError m
  | IndexError m => m
  end.

(** [sys.argv[i]] *)
Definition argv_at (argv : list string) (i : nat) : M string :=
  match argv !! i with
  | Some s => ret s
  | None => raise (IndexError "list index out of range")
  end.

(** ** The script *)

Section Script.
Context `{Runtime}.

Definition script_dir : path := parent script_file.

Definition config_path : path := joinpath script_dir "layout_config.json".

Definition load_config : M loc :=
  try_except
    (text <~ open_read config_path ;;
     match json_loads text with
     | inl v => alloc v
     | inr (BadJSON msg) => raise (JSONDecodeError msg)
     | inr (BadEncoding msg) => raise (UnicodeDecodeError msg)
     end)
    (fun e =>
       match e with
       | FileNotFoundError _ =>
           Some (print ("Error: Configuration file not found at " ++ config_path) ;;
                 sys_exit 1)
       | JSONDecodeError _ =>
           Some (print ("Error: Invalid JSON in configuration file: " ++ exn_str e) ;;
                 sys_exit 1)
       | _ => None
       end).

(** The text of [{v}] in an f-string. *)
Definition fmt (v : json) : string :=
  match v with
  | JStr s => s
  | _ => py_repr v
  end.

Definition list_layouts (config : loc) : M unit :=
  print "Available layouts:" ;;
  print (str_repeat "=" 50) ;;
  cfg <~ deref config ;;
  layouts <~ subscript cfg "layouts" ;;
  entries <~ items layouts ;;
  for_each entries (fun '(layout_id, layout_info) =>
    print (nl ++ layout_id ++ ":") ;;
    name <~ subscript layout_info "name" ;;
    print ("  Name: " ++ fmt name) ;;
    description <~ subscript layout_info "description" ;;
    print ("  Description: " ++ fmt description) ;;
    resolution <~ subscript layout_info "recommended_resolution" ;;
    print ("  Recommended Resolution: " ++ fmt resolution) ;;
    use_cases <~ subscript layout_info "use_cases" ;;
    joined <~ join ", " use_cases ;;
    print ("  Use Cases: " ++ joined)).

(** [Path(__file__).parent / v] *)
Definition join_script_dir (v : json) : M path :=
  match v with
  | JStr f => ret (joinpath script_dir f)
  | _ => raise (TypeError "unsupported operand type(s) for /")
  end.

Definition target_file : path := joinpath (parent script_dir) "editor_layout.json".

Definition backup_file : path := joinpath script_dir "current_layout_backup.json".

Definition apply_layout (config : loc) (layout_id : string) : M unit :=
  cfg <~ deref config ;;
  layouts <~ subscript cfg "layouts" ;;
  known <~ contains layouts layout_id ;;
  when (negb known)
    (print ("Error: Layout '" ++ layout_id ++ "' not found.") ;;
     print "Use 'list' command to see available layouts." ;;
     sys_exit 1) ;;
  cfg' <~ deref config ;;
  layouts' <~ subscript cfg' "layouts" ;;
  layout_info <~ subscript layouts' layout_id ;;
  file <~ subscript layout_info "file" ;;
  source_file <~ join_script_dir file ;;
  present <~ path_exists source_file ;;
  when (negb present)
    (print ("Error: Layout file '" ++ source_file ++ "' not found.") ;;
     sys_exit 1) ;;
  try_except
    (copy2 source_file target_file ;;
     name <~ subscript layout_info "name" ;;
     print ("✓ Applied layout: " ++ fmt name) ;;
     description <~ subscript layout_info "description" ;;
     print ("  Description: " ++ fmt description) ;;
     file' <~ subscript layout_info "file" ;;
     print ("  File: " ++ fmt file' ++ " -> editor_layout.json") ;;
     print (nl ++ "Restart the editor to see the new layout."))
    (except_Exception (fun e =>
       print ("Error: Failed to copy layout file: " ++ exn_str e) ;;
       sys_exit 1)).

Definition backup_current_layout : M unit :=
  let current_layout := target_file in
  present <~ path_exists current_layout ;;
  if present then
    try_except
      (copy2 current_layout backup_file ;;
       print ("✓ Current layout backed up to: " ++ backup_file))
      (except_Exception (fun e =>
         print ("Warning: Failed to backup current layout: " ++ exn_str e)))
  else
    print "No current layout file to backup.".

Definition restore_backup : M unit :=
  present <~ path_exists backup_file ;;
  when (negb present)
    (print "Error: No backup file found." ;;
     sys_exit 1) ;;
  try_except
    (copy2 backup_file target_file ;;
     print "✓ Backup layout restored.")
    (except_Exception (fun e =>
       print ("Error: Failed to restore backup: " ++ exn_str e) ;;
       sys_exit 1)).

Definition show_usage : M unit :=
  print "Multi-Viewport Editor Layout Switcher" ;;
  print (str_repeat "=" 40) ;;
  print (nl ++ "Usage:") ;;
  print "  python switch_layout.py <command> [layout_id]" ;;
  print (nl ++ "Commands:") ;;
  print "  list                 - Show all available layouts" ;;
  print "  apply <layout_id>    - Apply a specific layout" ;;
  print "  backup               - Backup current layout" ;;
  print "  restore              - Restore backed up layout" ;;
  print "  help                 - Show this help message" ;;
  print (nl ++ "Examples:") ;;
  print "  python switch_layout.py list" ;;
  print "  python switch_layout.py apply developer" ;;
  print "  python switch_layout.py apply dual_monitor".

(** [argv] is the whole of [sys.argv], the script's name first. *)
Definition main (argv : list string) : M unit :=
  when (length argv <? 2)%nat
    (show_usage ;;
     sys_exit 1) ;;
  arg1 <~ argv_at argv 1 ;;
  let command := lower arg1 in
  config <~ load_config ;;
  if String.eqb command "list" then
    list_layouts config
  else if String.eqb command "apply" then
    when (length argv <? 3)%nat
      (print "Error: Please specify a layout ID." ;;
       print "Use 'list' command to see available layouts." ;;
       sys_exit 1) ;;
    layout_id <~ argv_at argv 2 ;;
    backup_current_layout ;;
    apply_layout config layout_id
  else if String.eqb command "backup" then
    backup_current_layout
  else if String.eqb command "restore" then
    restore_backup
  else if existsb (String.eqb command) ["help"; "-h"; "--help"] then
    show_usage
  else
    print ("Error: Unknown command '" ++ command ++ "'") ;;
    show_usage ;;
    sys_exit 1.

(** ** Running the script as a process *)

Record outcome : Type := Outcome { exit_code : Z; final : world }.

Definition boot (fs : gmap string (list byte)) (flt : string -> string -> option fault)
  : world := World fs flt [] [].

(** The interpreter runs [main()]: a normal return exits with status 0,
    [sys.exit(c)] with status [c], and an uncaught exception prints a
    traceback on standard error and exits with status 1. *)
Definition finish (r : (unit + exn) * world) : outcome :=
  match r with
  | (inl _, w) => Outcome 0 w
  | (inr (SystemExit c), w) => Outcome c w
  | (inr e, w) => Outcome 1 (emit (Traceback e) w)
  end.

Definition run (argv : list string) (fs : gmap string (list byte))
  (flt : string -> string -> option fault) : outcome :=
  finish (main argv (boot fs flt)).

(** What is written on standard output, oldest first: one text for
    each call of [print], which ends it with a newline.  A text can hold
    newlines of its own (the headings of [list] start with one), so an
    element of [stdout] is one call, not one line of the output. *)
Definition stdout (o : outcome) : list string :=
  omap (fun e => match e with Print s => Some s | _ => None end) (trace (final o)).

(** ** Vocabulary of the specification *)

(** The configuration file of [fs] decodes to [cfg]. *)
Definition loads (fs : gmap string (list byte)) (cfg : json) : Prop :=
  exists b, fs !! config_path = Some b /\ json_loads b = inl cfg.

Definition field (v : json) (key : string) : option json :=
  match v with
  | JObj m => dict_get key m
  | _ => None
  end.

(** The registry: the mapping under the ["layouts"] key. *)
Definition registry (cfg : json) : option (list (string * json)) :=
  match field cfg "layouts" with
  | Some (JObj m) => Some m
  | _ => None
  end.

(** The world in which the handlers start once [load_config] has
    returned [cfg]: the object sits at address 0 of the heap. *)
Definition loaded (fs : gmap string (list byte)) (flt : string -> string -> option fault)
  (cfg : json) : world :=
  World fs flt [cfg] [OpenRead config_path].

(** The world in which [apply_layout] starts: after the backup step. *)
Definition at_apply (fs : gmap string (list byte)) (flt : string -> string -> option fault)
  (cfg : json) : world :=
  (backup_current_layout (loaded fs flt cfg)).2.

(** The exception [shutil.copy2] raises on an existing source, if any. *)
Definition copy_error (flt : string -> string -> option fault) (src dst : path)
  : option exn :=
  if decide (src = dst) then Some (SameFileError src dst)
  else match flt src dst with
       | Some f => Some (OSError (fault_msg f))
       | None => None
       end.

Definition usage_lines : list string :=
  [ "Multi-Viewport Editor Layout Switcher";
    str_repeat "=" 40;
    nl ++ "Usage:";
    "  python switch_layout.py <command> [layout_id]";
    nl ++ "Commands:";
    "  list                 - Show all available layouts";
    "  apply <layout_id>    - Apply a specific layout";
    "  backup               - Backup current layout";
    "  restore              - Restore backed up layout";
    "  help                 - Show this help message";
    nl ++ "Examples:";
    "  python switch_layout.py list";
    "  python switch_layout.py apply developer";
    "  python switch_layout.py apply dual_monitor" ].

(** The failures the script looks for, each with the line it prints:
    those of the specification's list, a failing copy in the backup
    step excepted (it only prints a warning), and a command that is
    not one of the script's.  The last case is stated for a command of
    ASCII text, on which [lower] is [str.lower]. *)
Inductive detected (fs : gmap string (list byte)) (flt : string -> string -> option fault)
  : list string -> string -> Prop :=
| config_missing prog cmd rest :
    fs !! config_path = None ->
    detected fs flt (prog :: cmd :: rest)
      ("Error: Configuration file not found at " ++ config_path)
| config_invalid prog cmd rest b msg :
    fs !! config_path = Some b ->
    json_loads b = inr (BadJSON msg) ->
    detected fs flt (prog :: cmd :: rest)
      ("Error: Invalid JSON in configuration file: " ++ msg)
| layout_id_missing prog cmd cfg :
    lower cmd = "apply" ->
    loads fs cfg ->
    detected fs flt [prog; cmd] "Error: Please specify a layout ID."
| layout_unknown prog cmd layout_id rest cfg m :
    lower cmd = "apply" ->
    loads fs cfg ->
    registry cfg = Some m ->
    dict_get layout_id m = None ->
    detected fs flt (prog :: cmd :: layout_id :: rest)
      ("Error: Layout '" ++ layout_id ++ "' not found.")
| source_missing prog cmd layout_id rest cfg m info f :
    lower cmd = "apply" ->
    loads fs cfg ->
    registry cfg = Some m ->
    dict_get layout_id m = Some info ->
    field info "file" = Some (JStr f) ->
    files (at_apply fs flt cfg) !! joinpath script_dir f = None ->
    detected fs flt (prog :: cmd :: layout_id :: rest)
      ("Error: Layout file '" ++ joinpath script_dir f ++ "' not found.")
| apply_copy_failed prog cmd layout_id rest cfg m info f e :
    lower cmd = "apply" ->
    loads fs cfg ->
    registry cfg = Some m ->
    dict_get layout_id m = Some info ->
    field info "file" = Some (JStr f) ->
    is_Some (files (at_apply fs flt cfg) !! joinpath script_dir f) ->
    copy_error flt (joinpath script_dir f) target_file = Some e ->
    detected fs flt (prog :: cmd :: layout_id :: rest)
      ("Error: Failed to copy layout file: " ++ exn_str e)
| backup_missing prog cmd rest cfg :
    lower cmd = "restore" ->
    loads fs cfg ->
    fs !! backup_file = None ->
    detected fs flt (prog :: cmd :: rest) "Error: No backup file found."
| restore_copy_failed prog cmd rest cfg e :
    lower cmd = "restore" ->
    loads fs cfg ->
    is_Some (fs !! backup_file) ->
    copy_error flt backup_file target_file = Some e ->
    detected fs flt (prog :: cmd :: rest)
      ("Error: Failed to restore backup: " ++ exn_str e)
| command_unknown prog cmd rest cfg :
    loads fs cfg ->
    ascii_text cmd = true ->
    lower cmd ∉ ["list"; "apply"; "backup"; "restore"; "help"; "-h"; "--help"] ->
    detected fs flt (prog :: cmd :: rest)
      ("Error: Unknown command '" ++ lower cmd ++ "'").

End Script.

(** ** Frame reasoning

    [stable R m]: whatever [m] does, the world it leaves is related by
    [R] to the one it started from, also when it raises. *)

Definition stable {A} (R : relation world) (m : M A) : Prop :=
  forall w, R w (m w).2.

(** [frame T]: the heap and the copy faults are kept, the trace only
    grows, and only files in [T] may be written. *)
Definition frame (T : path -> Prop) (w w' : world) : Prop :=
  heap w' = heap w /\
  faults w' = faults w /\
  trace w `prefix_of` trace w' /\
  forall p, ~ T p -> files w' !! p = files w !! p.

(** ** A concrete installation

    The script lives in [/repo/examples]; the configuration registers
    the two presets its usage text mentions. *)

Module Demo.

Definition bytes (s : string) : list byte := list_byte_of_string s.

(** On the reversed characters of a path: drop the last component and
    the separator before it. *)
Fixpoint strip_name (cs : list ascii) : list ascii :=
  match cs with
  | [] => []
  | c :: cs' => if Ascii.eqb c "/" then cs' else strip_name cs'
  end.

Definition parent_of (p : string) : string :=
  string_of_list_ascii (rev (strip_name (rev (list_ascii_of_string p)))).

Definition developer : json :=
  JObj [("name", JStr "Developer");
        ("description", JStr "Scene view with console and inspector");
        ("recommended_resolution", JStr "1920x1080");
        ("use_cases", JArr [JStr "coding"; JStr "debugging"]);
        ("file", JStr "developer_layout.json")].

Definition dual_monitor : json :=
  JObj [("name", JStr "Dual Monitor");
        ("description", JStr "Viewports spread over two screens");
        ("recommended_resolution", JStr "3840x1080");
        ("use_cases", JArr [JStr "level design"]);
        ("file", JStr "dual_monitor_layout.json")].

Definition layouts : list (string * json) :=
  [("developer", developer); ("dual_monitor", dual_monitor)].

Definition config : json := JObj [("layouts", JObj layouts)].

Definition config_text : list byte := bytes "<the registry document>".

(** A decoder that knows one document. *)
Definition loads_text (text : list byte) : json + load_error :=
  if String.eqb (string_of_list_byte text) (string_of_list_byte config_text)
  then inl config
  else inr (BadJSON "Expecting value: line 1 column 1 (char 0)").

Definition runtime : Runtime := {|
  script_file := "/repo/examples/switch_layout.py";
  parent := parent_of;
  joinpath := fun dir name => dir ++ "/" ++ name;
  json_loads := loads_text;
  py_repr := fun _ => "<object>";
  path_repr := fun p => "PosixPath('" ++ p ++ "')"
|}.

Definition no_faults : string -> string -> option fault := fun _ _ => None.

(** Writing the backup file is refused. *)
Definition backup_denied : string -> string -> option fault :=
  fun _ dst =>
    if String.eqb dst "/repo/examples/current_layout_backup.json"
    then Some (Fault "[Errno 13] Permission denied" None)
    else None.

(** Writing the destination file is refused. *)
Definition target_denied : string -> string -> option fault :=
  fun _ dst =>
    if String.eqb dst "/repo/editor_layout.json"
    then Some (Fault "[Errno 13] Permission denied" None)
    else None.

Definition presets : gmap string (list byte) :=
  <["/repo/examples/layout_config.json" := config_text]>
  (<["/repo/examples/developer_layout.json" := bytes "developer preset"]>
  (<["/repo/examples/dual_monitor_layout.json" := bytes "dual monitor preset"]> ∅)).

(** A layout is in use, none has been saved. *)
Definition in_use : gmap string (list byte) :=
  <["/repo/editor_layout.json" := bytes "layout in use"]> presets.

(** A layout is in use and an earlier one has been saved. *)
Definition saved : gmap string (list byte) :=
  <["/repo/examples/current_layout_backup.json" := bytes "saved layout"]> in_use.

(** The registry document is absent. *)
Definition unconfigured : gmap string (list byte) :=
  delete "/repo/examples/layout_config.json" saved.

(** The registry document is not JSON. *)
Definition garbled : gmap string (list byte) :=
  <["/repo/examples/layout_config.json" := bytes "{"]> saved.

(** The developer preset's file is gone. *)
Definition preset_lost : gmap string (list byte) :=
  delete "/repo/examples/developer_layout.json" saved.

(** One run for each failure the script looks for, with the line it
    is expected to print. *)
Definition failures
  : list (list string * gmap string (list byte)
          * (string -> string -> option fault) * string) :=
  [ (["switch_layout.py"; "help"], unconfigured, no_faults,
     "Error: Configuration file not found at /repo/examples/layout_config.json");
    (["switch_layout.py"; "list"], garbled, no_faults,
     "Error: Invalid JSON in configuration file: Expecting value: line 1 column 1 (char 0)");
    (["switch_layout.py"; "apply"], saved, no_faults,
     "Error: Please specify a layout ID.");
    (["switch_layout.py"; "apply"; "minimal"], saved, no_faults,
     "Error: Layout 'minimal' not found.");
    (["switch_layout.py"; "apply"; "developer"], preset_lost, no_faults,
     "Error: Layout file '/repo/examples/developer_layout.json' not found.");
    (["switch_layout.py"; "apply"; "developer"], saved, target_denied,
     "Error: Failed to copy layout file: [Errno 13] Permission denied");
    (["switch_layout.py"; "restore"], in_use, no_faults,
     "Error: No backup file found.");
    (["switch_layout.py"; "restore"], saved, target_denied,
     "Error: Failed to restore backup: [Errno 13] Permission denied");
    (["switch_layout.py"; "remove"], saved, no_faults,
     "Error: Unknown command 'remove'") ].

End Demo.

(** ** Vocabulary for the remaining behaviour *)

(** The world after the texts [ls] have been printed, one call of
    [print] for each. *)
Definition emit_texts (ls : list string) (w : world) : world :=
  World (files w) (faults w) (heap w) (trace w ++ map Print ls).

(** What [', '.join(v)] returns, when it returns. *)
Definition joined (v : json) : option string :=
  match v with
  | JArr l => option_map (String.concat ", ") (all_strings l)
  | JStr s => Some (String.concat ", " (chars s))
  | JObj m => Some (String.concat ", " (map fst m))
  | _ => None
  end.

(** A call of [print] that reports an error: its text starts with
    [Error:].  (A text that holds [Error:] after a newline of its own,
    as a heading of [list] can, is not a report.) *)
Definition error_report (text : string) : bool := String.prefix "Error:" text.

(** No error has been reported so far. *)
Definition quiet (t : list event) : Prop :=
  forall text, Print text ∈ t -> error_report text = false.

(** [m] reports an error only on its way to [sys.exit], and the status
    it exits with is 1. *)
Definition disciplined {A} (m : M A) : Prop :=
  forall w, quiet (trace w) ->
            match m w with
            | (inr (SystemExit c), _) => c = 1%Z
            | (_, w') => quiet (trace w')
            end.

(** Files outside [T] keep their contents. *)
Definition same_outside (T : path -> Prop) (w w' : world) : Prop :=
  forall p, ~ T p -> files w' !! p = files w !! p.

(** No file disappears. *)
Definition nothing_lost (w w' : world) : Prop :=
  forall p, is_Some (files w !! p) -> is_Some (files w' !! p).

Section Listing.
Context `{Runtime}.

(** The texts of the five calls of [print] that [list] makes for one
    entry of the registry, when the entry has every field.  The first,
    the heading, starts with a newline. *)
Definition entry_texts (layout_id : string) (layout_info : json)
  : option (list string) :=
  match field layout_info "name", field layout_info "description",
        field layout_info "recommended_resolution",
        field layout_info "use_cases" with
  | Some name, Some description, Some resolution, Some use_cases =>
      match joined use_cases with
      | Some cases =>
          Some [ nl ++ layout_id ++ ":";
                 "  Name: " ++ fmt name;
                 "  Description: " ++ fmt description;
                 "  Recommended Resolution: " ++ fmt resolution;
                 "  Use Cases: " ++ cases ]
      | None => None
      end
  | _, _, _, _ => None
  end.

Fixpoint listing (m : list (string * json)) : option (list string) :=
  match m with
  | [] => Some []
  | (layout_id, layout_info) :: m' =>
      match entry_texts layout_id layout_info, listing m' with
      | Some ls, Some rest => Some (ls ++ rest)%list
      | _, _ => None
      end
  end.

End Listing.

(** ** Configurations that are not as the script expects

    The same installation with a decoder that knows two more
    documents: a registry whose second entry has no name, and a
    document that is an array. *)

Module Draft.

Definition broken : json :=
  JObj [("description", JStr "Work in progress");
        ("file", JStr "developer_layout.json")].

Definition layouts : list (string * json) :=
  [("developer", Demo.developer); ("broken", broken);
   ("dual_monitor", Demo.dual_monitor)].

Definition config : json := JObj [("layouts", JObj layouts)].

Definition config_text : list byte := Demo.bytes "<a registry with a nameless entry>".

Definition array_text : list byte := Demo.bytes "<an array>".

Definition loads_text (text : list byte) : json + load_error :=
  if String.eqb (string_of_list_byte text) (string_of_list_byte config_text)
  then inl config
  else if String.eqb (string_of_list_byte text) (string_of_list_byte array_text)
  then inl (JArr [])
  else inr (BadJSON "Expecting value: line 1 column 1 (char 0)").

Definition runtime : Runtime := {|
  script_file := "/repo/examples/switch_layout.py";
  parent := Demo.parent_of;
  joinpath := fun dir name => dir ++ "/" ++ name;
  json_loads := loads_text;
  py_repr := fun _ => "<object>";
  path_repr := fun p => "PosixPath('" ++ p ++ "')"
|}.

Definition saved : gmap string (list byte) :=
  <["/repo/examples/layout_config.json" := config_text]> Demo.saved.

Definition with_array : gmap string (list byte) :=
  <["/repo/examples/layout_config.json" := array_text]> Demo.saved.

(** What [list] prints for the developer preset. *)
Definition developer_texts : list string :=
  [ nl ++ "developer:";
    "  Name: Developer";
    "  Description: Scene view with console and inspector";
    "  Recommended Resolution: 1920x1080";
    "  Use Cases: coding, debugging" ].

(** What [list] prints for the dual monitor preset. *)
Definition dual_monitor_texts : list string :=
  [ nl ++ "dual_monitor:";
    "  Name: Dual Monitor";
    "  Description: Viewports spread over two screens";
    "  Recommended Resolution: 3840x1080";
    "  Use Cases: level design" ].

End Draft.

(** ** Properties of the frame *)

#[local] Instance frame_preorder T : PreOrder (frame T).
Proof.
  split.
  - intros w. unfold frame. auto.
  - intros w1 w2 w3 (Hh1 & Hf1 & Ht1 & Hp1) (Hh2 & Hf2 & Ht2 & Hp2).
    unfold frame. repeat split.
    + congruence.
    + congruence.
    + by etrans.
    + intros p Hp. rewrite Hp2, Hp1; auto.
Qed.

Section Stable.
Context (R : relation world) `{!PreOrder R}.

Lemma stable_ret {A} (a : A) : stable R (ret a).
Proof. intros w. reflexivity. Qed.

Lemma stable_raise {A} (e : exn) : stable R (@raise A e).
Proof. intros w. reflexivity. Qed.

Lemma stable_sys_exit {A} (c : Z) : stable R (@sys_exit A c).
Proof. apply stable_raise. Qed.

Lemma stable_bind {A B} (m : M A) (k : A -> M B) :
  stable R m -> (forall a, stable R (k a)) -> stable R (bind m k).
Proof.
  intros Hm Hk w. unfold bind. specialize (Hm w).
  destruct (m w) as [[a|e] w1]; simpl in *; [|done].
  etrans; [exact Hm | apply Hk].
Qed.

Lemma stable_try_except {A} (body : M A) (handler : exn -> option (M A)) :
  stable R body ->
  (forall e h, handler e = Some h -> stable R h) ->
  stable R (try_except body handler).
Proof.
  intros Hb Hh w. unfold try_except. specialize (Hb w).
  destruct (body w) as [[a|e] w1]; simpl in *; [done|].
  destruct (handler e) as [h|] eqn:E; [|done].
  etrans; [exact Hb | by apply (Hh e)].
Qed.

Lemma stable_except_Exception {A} (h : exn -> M A) :
  (forall e, stable R (h e)) ->
  forall e m, except_Exception h e = Some m -> stable R m.
Proof.
  intros Hh e m. unfold except_Exception.
  destruct (is_Exception e); [|done]. intros [= <-]. apply Hh.
Qed.

Lemma stable_when (c : bool) (m : M unit) : stable R m -> stable R (when c m).
Proof. destruct c; [done|]. intros _. apply stable_ret. Qed.

Lemma stable_for_each {A} (l : list A) (body : A -> M unit) :
  (forall x, stable R (body x)) -> stable R (for_each l body).
Proof.
  intros Hb. induction l as [|x l IH]; simpl.
  - apply stable_ret.
  - apply stable_bind; auto.
Qed.

Lemma stable_subscript v key : stable R (subscript v key).
Proof.
  destruct v; simpl; try apply stable_raise.
  destruct (dict_get key members); [apply stable_ret | apply stable_raise].
Qed.

Lemma stable_contains v key : stable R (contains v key).
Proof. destruct v; simpl; first [apply stable_ret | apply stable_raise]. Qed.

Lemma stable_items v : stable R (items v).
Proof. destruct v; simpl; first [apply stable_ret | apply stable_raise]. Qed.

Lemma stable_join sep v : stable R (join sep v).
Proof.
  destruct v; simpl; try first [apply stable_ret | apply stable_raise].
  destruct (all_strings items0); [apply stable_ret | apply stable_raise].
Qed.

Lemma stable_argv_at argv i : stable R (argv_at argv i).
Proof.
  unfold argv_at. destruct (argv !! i); [apply stable_ret | apply stable_raise].
Qed.

End Stable.

Section FramePrimitives.
Context (T : path -> Prop).

Lemma frame_emit e w : frame T w (emit e w).
Proof.
  unfold frame; simpl. repeat split; auto. by apply prefix_app_r.
Qed.

Lemma frame_write dst b w w' :
  T dst -> frame T w w' -> frame T w (set_files (<[dst := b]> (files w)) w').
Proof.
  intros Hd (Hh & Hf & Ht & _). unfold frame; simpl. repeat split; auto.
  intros p Hp. apply lookup_insert_ne. intros ->. done.
Qed.

Lemma stable_print line : stable (frame T) (print line).
Proof. intros w. apply frame_emit. Qed.

Lemma stable_path_exists p : stable (frame T) (path_exists p).
Proof. intros w. apply frame_emit. Qed.

Lemma stable_deref r : stable (frame T) (deref r).
Proof. intros w. simpl. reflexivity. Qed.

Lemma stable_copy2 src dst : T dst -> stable (frame T) (copy2 src dst).
Proof.
  intros Hd w. unfold copy2.
  destruct (decide (src = dst)) as [Heq|Hne]; simpl; [apply frame_emit|].
  destruct (files w !! src) as [b|]; simpl; [|apply frame_emit].
  destruct (faults w src dst) as [[msg [n|]]|]; simpl;
    try apply frame_emit; apply frame_write; auto using frame_emit.
Qed.

End FramePrimitives.

Ltac frame_step :=
  first
    [ apply stable_bind; [typeclasses eauto| |intros ?]
    | apply stable_ret; typeclasses eauto
    | apply stable_raise; typeclasses eauto
    | apply stable_sys_exit; typeclasses eauto
    | apply stable_print
    | apply stable_path_exists
    | apply stable_deref
    | apply stable_subscript; typeclasses eauto
    | apply stable_contains; typeclasses eauto
    | apply stable_items; typeclasses eauto
    | apply stable_join; typeclasses eauto
    | apply stable_argv_at; typeclasses eauto
    | apply stable_when; [typeclasses eauto|]
    | apply stable_try_except;
      [typeclasses eauto| |apply stable_except_Exception; intros ?]
    | apply stable_for_each; [typeclasses eauto|intros [? ?]]
    | apply stable_copy2; first [reflexivity | assumption | exact I] ].

Ltac frame_auto := repeat frame_step.

(** ** What each handler may touch *)

Section HandlerFrames.
Context `{Runtime}.

Lemma stable_join_script_dir T v : stable (frame T) (join_script_dir v).
Proof. destruct v; simpl; frame_auto. Qed.

Lemma frame_list_layouts T config : stable (frame T) (list_layouts config).
Proof. unfold list_layouts. frame_auto. Qed.

Lemma frame_show_usage T : stable (frame T) show_usage.
Proof. unfold show_usage. frame_auto. Qed.

Lemma frame_apply_layout T config layout_id :
  T target_file -> stable (frame T) (apply_layout config layout_id).
Proof.
  intros HT. unfold apply_layout. frame_auto. apply stable_join_script_dir.
Qed.

Lemma frame_backup_current_layout T :
  T backup_file -> stable (frame T) backup_current_layout.
Proof.
  intros HT. unfold backup_current_layout. frame_auto.
  match goal with |- stable _ (if ?b then _ else _) => destruct b end; frame_auto.
Qed.

Lemma frame_restore_backup T :
  T target_file -> stable (frame T) restore_backup.
Proof. intros HT. unfold restore_backup. frame_auto. Qed.

End HandlerFrames.

(** ** Evaluating the script *)

Ltac py_cbn :=
  repeat (progress (
    unfold bind, ret, raise, when, try_except, except_Exception, print,
      sys_exit, path_exists, deref, argv_at;
    cbn [is_Exception emit set_files subscript contains items
         negb fst snd files faults heap trace length Nat.ltb Nat.leb
         lookup list_lookup finish exit_code final boot default from_option id])).

Lemma bind_eq {A B} (m : M A) (k : A -> M B) w a w1 :
  m w = (inl a, w1) -> bind m k w = k a w1.
Proof. intros E. unfold bind. by rewrite E. Qed.

Lemma pair_eta {A B} (p : A * B) a : p.1 = a -> p = (a, p.2).
Proof. destruct p; simpl; congruence. Qed.

Lemma exists_yes (m : gmap string (list byte)) p b :
  m !! p = Some b -> bool_decide (is_Some (m !! p)) = true.
Proof. intros ->. by apply bool_decide_eq_true. Qed.

Lemma exists_no (m : gmap string (list byte)) p :
  m !! p = None -> bool_decide (is_Some (m !! p)) = false.
Proof. intros ->. apply bool_decide_eq_false. by intros [? ?]. Qed.

Lemma lower_ascii_idem c : lower_ascii (lower_ascii c) = lower_ascii c.
Proof. destruct c as [[] [] [] [] [] [] [] []]; reflexivity. Qed.

Lemma lower_idem s : lower (lower s) = lower s.
Proof. induction s as [|c s IH]; simpl; [done|]. by rewrite lower_ascii_idem, IH. Qed.

Lemma copy2_ok src dst w b :
  files w !! src = Some b -> copy_error (faults w) src dst = None ->
  copy2 src dst w =
  (inl tt, set_files (<[dst := b]> (files w)) (emit (Copy2 src dst) w)).
Proof.
  unfold copy_error, copy2. intros ->.
  destruct (decide (src = dst)); [done|].
  destruct (faults w src dst); [done|]. reflexivity.
Qed.

Lemma copy2_fails src dst w b e :
  files w !! src = Some b -> copy_error (faults w) src dst = Some e ->
  exists w', copy2 src dst w = (inr e, w') /\ is_Exception e = true /\
             frame (fun p => p = dst) w w'.
Proof.
  unfold copy_error. intros Hs He.
  pose proof (stable_copy2 (fun p => p = dst) src dst eq_refl w) as Hf.
  revert Hf. unfold copy2. rewrite Hs.
  destruct (decide (src = dst)).
  - simplify_eq. eauto.
  - destruct (faults w src dst) as [f|]; [|done]. simplify_eq. eauto.
Qed.

Lemma stdout_elem o line : Print line ∈ trace (final o) -> line ∈ stdout o.
Proof.
  intros Hin. unfold stdout. apply list_elem_of_omap. by exists (Print line).
Qed.

Lemma frame_weaken (T T' : path -> Prop) w w' :
  (forall p, T p -> T' p) -> frame T w w' -> frame T' w w'.
Proof.
  intros HT (Hh & Hf & Ht & Hp). repeat split; auto.
Qed.

Lemma frame_files w w' : frame (fun _ => False) w w' -> files w' = files w.
Proof. intros (_ & _ & _ & Hp). apply map_eq. intros p. apply Hp. tauto. Qed.

Lemma frame_finish T r w w' :
  frame T w w' -> frame T w (final (finish (r, w'))).
Proof.
  intros Hf. destruct r as [[]|e]; simpl; [done|].
  destruct e; simpl; try done; (etrans; [exact Hf | apply frame_emit]).
Qed.

Section Behaviour.
Context `{Runtime}.

Lemma load_config_eq w :
  load_config w =
  let w1 := emit (OpenRead config_path) w in
  match files w !! config_path with
  | None =>
      (inr (SystemExit 1),
       emit (Print ("Error: Configuration file not found at " ++ config_path)) w1)
  | Some b =>
      match json_loads b with
      | inl v =>
          (inl (length (heap w)),
           World (files w) (faults w) (heap w ++ [v]) (trace w1))
      | inr (BadJSON msg) =>
          (inr (SystemExit 1),
           emit (Print ("Error: Invalid JSON in configuration file: " ++ msg)) w1)
      | inr (BadEncoding msg) => (inr (UnicodeDecodeError msg), w1)
      end
  end.
Proof.
  unfold load_config, try_except, bind, open_read.
  destruct (files w !! config_path) as [b|]; [|reflexivity].
  destruct (json_loads b) as [v|[msg|msg]]; reflexivity.
Qed.

Lemma load_config_boot fs flt cfg :
  loads fs cfg -> load_config (boot fs flt) = (inl 0%nat, loaded fs flt cfg).
Proof.
  intros (b & Hb & Hj). rewrite load_config_eq. simpl. rewrite Hb, Hj. reflexivity.
Qed.

(** *** The backup step *)

Lemma backup_returns w : (backup_current_layout w).1 = inl tt.
Proof.
  unfold backup_current_layout. py_cbn.
  destruct (bool_decide (is_Some (files w !! target_file))); [|reflexivity].
  destruct (copy2 target_file backup_file (emit (PathExists target_file) w))
    as [[[]|e] w1] eqn:E; [reflexivity|].
  destruct e; try reflexivity.
  unfold copy2 in E. repeat case_match; simplify_eq.
Qed.

Lemma backup_eq w :
  backup_current_layout w = (inl tt, (backup_current_layout w).2).
Proof. apply pair_eta, backup_returns. Qed.

Lemma backup_nothing w :
  files w !! target_file = None -> files (backup_current_layout w).2 = files w.
Proof.
  intros Hn. unfold backup_current_layout. py_cbn.
  by rewrite (exists_no _ _ Hn).
Qed.

Lemma backup_success w c :
  files w !! target_file = Some c ->
  copy_error (faults w) target_file backup_file = None ->
  files (backup_current_layout w).2 = <[backup_file := c]> (files w).
Proof.
  intros Hc Hok. unfold backup_current_layout. py_cbn.
  rewrite (exists_yes _ _ _ Hc).
  rewrite (copy2_ok target_file backup_file _ c); [reflexivity|done|done].
Qed.

Lemma backup_keeps_target w :
  files (backup_current_layout w).2 !! target_file = files w !! target_file.
Proof.
  destruct (decide (target_file = backup_file)) as [Heq|Hne].
  - unfold backup_current_layout. py_cbn.
    destruct (bool_decide (is_Some (files w !! target_file))); [|reflexivity].
    unfold copy2.
    destruct (decide (target_file = backup_file)); [reflexivity|done].
  - destruct (frame_backup_current_layout (fun p => p = backup_file) eq_refl w)
      as (_ & _ & _ & Hp).
    apply Hp. done.
Qed.

Lemma backup_files w :
  files (backup_current_layout w).2 = files w \/
  exists b, files (backup_current_layout w).2 = <[backup_file := b]> (files w).
Proof.
  unfold backup_current_layout. py_cbn.
  destruct (bool_decide (is_Some (files w !! target_file))); [|by left].
  unfold copy2. cbn [emit files faults].
  destruct (decide (target_file = backup_file)); [by left|].
  destruct (files w !! target_file) as [c|]; [|by left].
  destruct (faults w target_file backup_file) as [[msg [k|]]|];
    cbn [fault_written fault_msg is_Exception fst snd files emit set_files]; eauto.
Qed.

Lemma backup_keeps_existing w p :
  is_Some (files w !! p) -> is_Some (files (backup_current_layout w).2 !! p).
Proof.
  intros Hp. destruct (backup_files w) as [->|[b ->]]; [done|].
  destruct (decide (p = backup_file)) as [->|Hne].
  - rewrite lookup_insert_eq. eauto.
  - by rewrite lookup_insert_ne.
Qed.

Lemma at_apply_heap fs flt cfg : heap (at_apply fs flt cfg) = [cfg].
Proof.
  by destruct (frame_backup_current_layout (fun _ => True) I (loaded fs flt cfg))
    as (Hh & _).
Qed.

Lemma at_apply_faults fs flt cfg : faults (at_apply fs flt cfg) = flt.
Proof.
  by destruct (frame_backup_current_layout (fun _ => True) I (loaded fs flt cfg))
    as (_ & Hf & _).
Qed.

(** *** [apply_layout] *)

Lemma registry_layouts cfg m :
  registry cfg = Some m -> exists top, cfg = JObj top /\ dict_get "layouts" top = Some (JObj m).
Proof.
  unfold registry, field. destruct cfg; try done.
  destruct (dict_get "layouts" members) as [[]|] eqn:E; try done.
  intros [= ->]. eauto.
Qed.

Lemma apply_unknown config layout_id w cfg m :
  heap w !! config = Some cfg ->
  registry cfg = Some m ->
  dict_get layout_id m = None ->
  apply_layout config layout_id w =
  (inr (SystemExit 1),
   emit (Print "Use 'list' command to see available layouts.")
     (emit (Print ("Error: Layout '" ++ layout_id ++ "' not found.")) w)).
Proof.
  intros Hh (top & -> & Ht)%registry_layouts Hm.
  unfold apply_layout. py_cbn. rewrite Hh. py_cbn. rewrite Ht. py_cbn.
  rewrite Hm. reflexivity.
Qed.

Lemma apply_source_missing config layout_id w cfg m info f :
  heap w !! config = Some cfg ->
  registry cfg = Some m ->
  dict_get layout_id m = Some info ->
  field info "file" = Some (JStr f) ->
  files w !! joinpath script_dir f = None ->
  apply_layout config layout_id w =
  (inr (SystemExit 1),
   emit (Print ("Error: Layout file '" ++ joinpath script_dir f ++ "' not found."))
     (emit (PathExists (joinpath script_dir f)) w)).
Proof.
  intros Hh (top & -> & Ht)%registry_layouts Hm Hf Hs.
  destruct info as [| | | | |members]; try done. simpl in Hf.
  unfold apply_layout. py_cbn.
  repeat (first [rewrite Hh | rewrite Ht | rewrite Hm | rewrite Hf]; py_cbn).
  unfold join_script_dir. py_cbn.
  rewrite (exists_no _ _ Hs). reflexivity.
Qed.

Lemma apply_copy_fails config layout_id w cfg m info f b e :
  heap w !! config = Some cfg ->
  registry cfg = Some m ->
  dict_get layout_id m = Some info ->
  field info "file" = Some (JStr f) ->
  files w !! joinpath script_dir f = Some b ->
  copy_error (faults w) (joinpath script_dir f) target_file = Some e ->
  exists w', apply_layout config layout_id w =
             (inr (SystemExit 1),
              emit (Print ("Error: Failed to copy layout file: " ++ exn_str e)) w').
Proof.
  intros Hh (top & -> & Ht)%registry_layouts Hm Hf Hs He.
  destruct info as [| | | | |members]; try done. simpl in Hf.
  destruct (copy2_fails (joinpath script_dir f) target_file
              (emit (PathExists (joinpath script_dir f)) w) b e)
    as (w' & Hc & Hx & _); [done|done|].
  exists w'.
  unfold apply_layout. py_cbn.
  repeat (first [rewrite Hh | rewrite Ht | rewrite Hm | rewrite Hf]; py_cbn).
  unfold join_script_dir. py_cbn.
  rewrite (exists_yes _ _ _ Hs). py_cbn. rewrite Hc, Hx. reflexivity.
Qed.

Lemma apply_copy_ok config layout_id w cfg m info f b :
  heap w !! config = Some cfg ->
  registry cfg = Some m ->
  dict_get layout_id m = Some info ->
  field info "file" = Some (JStr f) ->
  files w !! joinpath script_dir f = Some b ->
  copy_error (faults w) (joinpath script_dir f) target_file = None ->
  files (apply_layout config layout_id w).2 = <[target_file := b]> (files w).
Proof.
  intros Hh (top & -> & Ht)%registry_layouts Hm Hf Hs He.
  destruct info as [| | | | |members]; try done. simpl in Hf.
  unfold apply_layout. py_cbn.
  repeat (first [rewrite Hh | rewrite Ht | rewrite Hm | rewrite Hf]; py_cbn).
  unfold join_script_dir. py_cbn.
  rewrite (exists_yes _ _ _ Hs). py_cbn.
  rewrite (copy2_ok _ target_file _ b); [|done|done].
  destruct (dict_get "name" members); [|reflexivity].
  destruct (dict_get "description" members); reflexivity.
Qed.

(** *** [restore_backup] *)

Lemma restore_missing w :
  files w !! backup_file = None ->
  restore_backup w =
  (inr (SystemExit 1),
   emit (Print "Error: No backup file found.") (emit (PathExists backup_file) w)).
Proof.
  intros Hn. unfold restore_backup. py_cbn. by rewrite (exists_no _ _ Hn).
Qed.

Lemma restore_fails w b e :
  files w !! backup_file = Some b ->
  copy_error (faults w) backup_file target_file = Some e ->
  exists w', restore_backup w =
             (inr (SystemExit 1),
              emit (Print ("Error: Failed to restore backup: " ++ exn_str e)) w').
Proof.
  intros Hs He.
  destruct (copy2_fails backup_file target_file (emit (PathExists backup_file) w) b e)
    as (w' & Hc & Hx & _); [done|done|].
  exists w'. unfold restore_backup. py_cbn. rewrite (exists_yes _ _ _ Hs).
  py_cbn. rewrite Hc, Hx. reflexivity.
Qed.

Lemma restore_ok w b :
  files w !! backup_file = Some b ->
  copy_error (faults w) backup_file target_file = None ->
  exists w', restore_backup w = (inl tt, w') /\
             files w' = <[target_file := b]> (files w).
Proof.
  intros Hs He. eexists. unfold restore_backup. py_cbn.
  rewrite (exists_yes _ _ _ Hs). py_cbn.
  rewrite (copy2_ok backup_file target_file _ b); [|done|done].
  split; reflexivity.
Qed.

End Behaviour.

(** ** Whole runs *)

Section Runs.
Context `{Runtime}.

Lemma main_eq prog cmd rest w :
  main (prog :: cmd :: rest) w =
  bind load_config (fun config =>
    if String.eqb (lower cmd) "list" then
      list_layouts config
    else if String.eqb (lower cmd) "apply" then
      when (length (prog :: cmd :: rest) <? 3)%nat
        (print "Error: Please specify a layout ID." ;;
         print "Use 'list' command to see available layouts." ;;
         sys_exit 1) ;;
      layout_id <~ argv_at (prog :: cmd :: rest) 2 ;;
      backup_current_layout ;;
      apply_layout config layout_id
    else if String.eqb (lower cmd) "backup" then
      backup_current_layout
    else if String.eqb (lower cmd) "restore" then
      restore_backup
    else if existsb (String.eqb (lower cmd)) ["help"; "-h"; "--help"] then
      show_usage
    else
      print ("Error: Unknown command '" ++ lower cmd ++ "'") ;;
      show_usage ;;
      sys_exit 1) w.
Proof. reflexivity. Qed.

Lemma run_config_missing prog cmd rest fs flt :
  fs !! config_path = None ->
  run (prog :: cmd :: rest) fs flt =
  Outcome 1 (World fs flt []
    [OpenRead config_path;
     Print ("Error: Configuration file not found at " ++ config_path)]).
Proof.
  intros Hn. unfold run. rewrite main_eq. unfold bind.
  rewrite load_config_eq. cbn [boot files]. rewrite Hn. reflexivity.
Qed.

Lemma run_config_invalid prog cmd rest fs flt b msg :
  fs !! config_path = Some b ->
  json_loads b = inr (BadJSON msg) ->
  run (prog :: cmd :: rest) fs flt =
  Outcome 1 (World fs flt []
    [OpenRead config_path;
     Print ("Error: Invalid JSON in configuration file: " ++ msg)]).
Proof.
  intros Hb Hj. unfold run. rewrite main_eq. unfold bind.
  rewrite load_config_eq. cbn [boot files]. rewrite Hb, Hj. reflexivity.
Qed.

Lemma run_config_undecodable prog cmd rest fs flt b msg :
  fs !! config_path = Some b ->
  json_loads b = inr (BadEncoding msg) ->
  run (prog :: cmd :: rest) fs flt =
  Outcome 1 (World fs flt []
    [OpenRead config_path; Traceback (UnicodeDecodeError msg)]).
Proof.
  intros Hb Hj. unfold run. rewrite main_eq. unfold bind.
  rewrite load_config_eq. cbn [boot files]. rewrite Hb, Hj. reflexivity.
Qed.

Lemma run_list prog cmd rest fs flt cfg :
  lower cmd = "list" -> loads fs cfg ->
  run (prog :: cmd :: rest) fs flt = finish (list_layouts 0 (loaded fs flt cfg)).
Proof.
  intros Hc Hl. unfold run. rewrite main_eq.
  rewrite (bind_eq _ _ _ _ _ (load_config_boot _ _ _ Hl)), Hc. reflexivity.
Qed.

Lemma run_apply_no_id prog cmd fs flt cfg :
  lower cmd = "apply" -> loads fs cfg ->
  run [prog; cmd] fs flt =
  Outcome 1 (World fs flt [cfg]
    [OpenRead config_path;
     Print "Error: Please specify a layout ID.";
     Print "Use 'list' command to see available layouts."]).
Proof.
  intros Hc Hl. unfold run. rewrite main_eq.
  rewrite (bind_eq _ _ _ _ _ (load_config_boot _ _ _ Hl)), Hc. reflexivity.
Qed.

Lemma run_apply prog cmd layout_id rest fs flt cfg :
  lower cmd = "apply" -> loads fs cfg ->
  run (prog :: cmd :: layout_id :: rest) fs flt =
  finish (apply_layout 0 layout_id (at_apply fs flt cfg)).
Proof.
  intros Hc Hl. unfold run. rewrite main_eq.
  rewrite (bind_eq _ _ _ _ _ (load_config_boot _ _ _ Hl)), Hc.
  cbn [String.eqb Ascii.eqb Bool.eqb length Nat.ltb Nat.leb when].
  erewrite (bind_eq (ret tt)) by reflexivity.
  erewrite (bind_eq (argv_at _ 2)) by reflexivity.
  rewrite (bind_eq _ _ _ _ _ (backup_eq _)). reflexivity.
Qed.

Lemma run_backup prog cmd rest fs flt cfg :
  lower cmd = "backup" -> loads fs cfg ->
  run (prog :: cmd :: rest) fs flt =
  Outcome 0 (backup_current_layout (loaded fs flt cfg)).2.
Proof.
  intros Hc Hl. unfold run. rewrite main_eq.
  rewrite (bind_eq _ _ _ _ _ (load_config_boot _ _ _ Hl)), Hc.
  cbn [String.eqb Ascii.eqb Bool.eqb]. by rewrite backup_eq.
Qed.

Lemma run_restore prog cmd rest fs flt cfg :
  lower cmd = "restore" -> loads fs cfg ->
  run (prog :: cmd :: rest) fs flt = finish (restore_backup (loaded fs flt cfg)).
Proof.
  intros Hc Hl. unfold run. rewrite main_eq.
  rewrite (bind_eq _ _ _ _ _ (load_config_boot _ _ _ Hl)), Hc. reflexivity.
Qed.

Lemma run_unknown prog cmd rest fs flt cfg :
  loads fs cfg ->
  lower cmd ∉ ["list"; "apply"; "backup"; "restore"; "help"; "-h"; "--help"] ->
  run (prog :: cmd :: rest) fs flt =
  Outcome 1
    (show_usage
       (emit (Print ("Error: Unknown command '" ++ lower cmd ++ "'"))
          (loaded fs flt cfg))).2.
Proof.
  intros Hl Hn. unfold run. rewrite main_eq.
  rewrite (bind_eq _ _ _ _ _ (load_config_boot _ _ _ Hl)).
  assert (forall name,
             name ∈ ["list"; "apply"; "backup"; "restore"; "help"; "-h"; "--help"] ->
             String.eqb (lower cmd) name = false) as Hne.
  { intros name Hin. apply String.eqb_neq. by intros <-. }
  cbn [existsb].
  rewrite !Hne by set_solver. reflexivity.
Qed.

(** Whatever the command, a run that has loaded its configuration
    ends in a world that extends the loaded one. *)
Lemma run_loaded prog cmd rest fs flt cfg :
  loads fs cfg ->
  frame (fun _ => True) (loaded fs flt cfg) (final (run (prog :: cmd :: rest) fs flt)).
Proof.
  intros Hl. unfold run. rewrite main_eq.
  rewrite (bind_eq _ _ _ _ _ (load_config_boot _ _ _ Hl)).
  match goal with |- context [finish (?D ?w)] =>
    assert (Hs : stable (frame (fun _ => True)) D)
  end.
  { repeat match goal with
           | |- stable _ (if ?b then _ else _) => destruct b
           end.
    - apply frame_list_layouts.
    - apply stable_bind; [typeclasses eauto|frame_auto|intros _].
      apply stable_bind; [typeclasses eauto|frame_auto|intros layout_id].
      apply stable_bind; [typeclasses eauto| |intros _].
      + by apply frame_backup_current_layout.
      + by apply frame_apply_layout.
    - by apply frame_backup_current_layout.
    - by apply frame_restore_backup.
    - apply frame_show_usage.
    - apply stable_bind; [typeclasses eauto|frame_auto|intros _].
      apply stable_bind; [typeclasses eauto|apply frame_show_usage|intros _].
      frame_auto. }
  specialize (Hs (loaded fs flt cfg)).
  match goal with |- context [finish ?x] => destruct x as [r w'] end.
  by apply frame_finish.
Qed.

End Runs.

(** ** The claims of the specification *)

Section Claims.
Context `{Runtime}.

Lemma finish_files x : files (final (finish x)) = files x.2.
Proof. destruct x as [[[]|e] w]; [done|]. destruct e; reflexivity. Qed.

Lemma finish_trace x : trace x.2 `prefix_of` trace (final (finish x)).
Proof.
  destruct x as [[[]|e] w]; [done|].
  destruct e; simpl; try done; by apply prefix_app_r.
Qed.

Lemma loaded_heap_at_0 fs flt cfg : heap (at_apply fs flt cfg) !! 0%nat = Some cfg.
Proof. by rewrite at_apply_heap. Qed.

(** C3: applying an id that is not a key of the registry exits with
    status 1 and leaves the destination file as it was. *)
Theorem apply_unknown_id_keeps_destination
  prog cmd layout_id rest fs flt cfg m :
  lower cmd = "apply" ->
  loads fs cfg ->
  registry cfg = Some m ->
  dict_get layout_id m = None ->
  let o := run (prog :: cmd :: layout_id :: rest) fs flt in
  exit_code o = 1%Z /\ files (final o) !! target_file = fs !! target_file.
Proof.
  intros Hc Hl Hr Hm o. subst o. rewrite (run_apply _ _ _ _ _ _ _ Hc Hl).
  rewrite (apply_unknown _ _ _ cfg m (loaded_heap_at_0 _ _ _) Hr Hm).
  split; [reflexivity|].
  cbn [finish final emit files]. unfold at_apply. by rewrite backup_keeps_target.
Qed.

(** C5: restoring when there is no backup file exits with status 1 and
    leaves every file, the destination included, as it was. *)
Theorem restore_without_backup prog cmd rest fs flt :
  lower cmd = "restore" ->
  fs !! backup_file = None ->
  let o := run (prog :: cmd :: rest) fs flt in
  exit_code o = 1%Z /\
  files (final o) = fs /\
  files (final o) !! target_file = fs !! target_file.
Proof.
  intros Hc Hb o. subst o.
  assert (forall o, exit_code o = 1%Z /\ files (final o) = fs ->
                    exit_code o = 1%Z /\ files (final o) = fs /\
                    files (final o) !! target_file = fs !! target_file) as Hgoal.
  { intros o (? & Hf). by rewrite Hf. }
  apply Hgoal.
  destruct (fs !! config_path) as [b|] eqn:Eb.
  - destruct (json_loads b) as [cfg|[msg|msg]] eqn:Ej.
    + assert (loads fs cfg) as Hl by (exists b; done).
      rewrite (run_restore _ _ _ _ _ _ Hc Hl).
      rewrite restore_missing by done. done.
    + by rewrite (run_config_invalid _ _ _ _ _ _ _ Eb Ej).
    + by rewrite (run_config_undecodable _ _ _ _ _ _ _ Eb Ej).
  - by rewrite (run_config_missing _ _ _ _ _ Eb).
Qed.

(** C6: applying a known id whose source file exists and whose copy
    succeeds leaves in the destination exactly the bytes of the source
    file; they are the bytes the source held at the start unless the
    preset's file is the backup file itself. *)
Theorem apply_known_id_copies_source
  prog cmd layout_id rest fs flt cfg m info f b :
  lower cmd = "apply" ->
  loads fs cfg ->
  registry cfg = Some m ->
  dict_get layout_id m = Some info ->
  field info "file" = Some (JStr f) ->
  fs !! joinpath script_dir f = Some b ->
  copy_error flt (joinpath script_dir f) target_file = None ->
  let o := run (prog :: cmd :: layout_id :: rest) fs flt in
  exists b',
    files (final o) !! target_file = Some b' /\
    files (final o) !! joinpath script_dir f = Some b' /\
    (joinpath script_dir f <> backup_file -> b' = b).
Proof.
  intros Hc Hl Hr Hm Hf Hs He o. subst o.
  rewrite (run_apply _ _ _ _ _ _ _ Hc Hl), finish_files.
  destruct (backup_keeps_existing (loaded fs flt cfg) (joinpath script_dir f))
    as [b' Hb']; [by eexists|].
  fold (at_apply fs flt cfg) in Hb'.
  rewrite (apply_copy_ok _ _ _ cfg m info f b' (loaded_heap_at_0 _ _ _) Hr Hm Hf Hb')
    by (by rewrite at_apply_faults).
  exists b'. split; [apply lookup_insert_eq|]. split.
  - rewrite lookup_insert_ne; [done|].
    intros Heq. unfold copy_error in He. rewrite <- Heq in He.
    by destruct (decide (target_file = target_file)).
  - intros Hne.
    destruct (frame_backup_current_layout (fun p => p = backup_file) eq_refl
                (loaded fs flt cfg)) as (_ & _ & _ & Hp).
    specialize (Hp _ Hne). unfold at_apply in Hb'. rewrite Hp in Hb'.
    simpl in Hb'. congruence.
Qed.

(** C4: a backup run followed by a restore run, both copies succeeding
    and nothing else touching the files in between, leaves in the
    destination exactly the bytes it held before the backup. *)
Theorem backup_restore_roundtrip
  prog1 cmd1 rest1 prog2 cmd2 rest2 fs flt1 flt2 cfg1 cfg2 c :
  lower cmd1 = "backup" ->
  lower cmd2 = "restore" ->
  fs !! target_file = Some c ->
  loads fs cfg1 ->
  copy_error flt1 target_file backup_file = None ->
  let o1 := run (prog1 :: cmd1 :: rest1) fs flt1 in
  loads (files (final o1)) cfg2 ->
  copy_error flt2 backup_file target_file = None ->
  let o2 := run (prog2 :: cmd2 :: rest2) (files (final o1)) flt2 in
  exit_code o1 = 0%Z /\ exit_code o2 = 0%Z /\
  files (final o2) !! target_file = Some c.
Proof.
  intros Hc1 Hc2 Ht Hl1 He1 o1 Hl2 He2 o2. subst o2 o1.
  rewrite (run_backup _ _ _ _ _ _ Hc1 Hl1) in *. cbn [final exit_code] in *.
  rewrite (backup_success (loaded fs flt1 cfg1) c Ht He1) in *.
  cbn [loaded files] in *.
  rewrite (run_restore _ _ _ _ _ _ Hc2 Hl2).
  destruct (restore_ok (loaded (<[backup_file := c]> fs) flt2 cfg2) c)
    as (w' & -> & Hw'); [apply lookup_insert_eq|done|].
  cbn [finish final exit_code]. rewrite Hw'. cbn [loaded files].
  repeat split. apply lookup_insert_eq.
Qed.


Lemma prefix_head {A} (x : A) l : [x] `prefix_of` l -> head l = Some x.
Proof. intros [k ->]. reflexivity. Qed.

Lemma run_no_command argv fs flt :
  (length argv < 2)%nat ->
  run argv fs flt = Outcome 1 (World fs flt [] (map Print usage_lines)).
Proof.
  intros Hlen. destruct argv as [|prog [|cmd rest]]; [reflexivity..|].
  simpl in Hlen. lia.
Qed.

(** C7: no handler writes to the heap, so the configuration object is,
    at the end of every run, the value [load_config] returned. *)
Theorem registry_never_mutated :
  (forall config layout_id w,
      heap (list_layouts config w).2 = heap w /\
      heap (apply_layout config layout_id w).2 = heap w /\
      heap (backup_current_layout w).2 = heap w /\
      heap (restore_backup w).2 = heap w /\
      heap (show_usage w).2 = heap w) /\
  (forall prog cmd rest fs flt cfg,
      loads fs cfg ->
      load_config (boot fs flt) = (inl 0%nat, loaded fs flt cfg) /\
      heap (loaded fs flt cfg) = [cfg] /\
      heap (final (run (prog :: cmd :: rest) fs flt)) = [cfg]).
Proof.
  split.
  - intros config layout_id w. split; [|split; [|split; [|split]]].
    + apply (frame_list_layouts (fun _ => True)).
    + by apply (frame_apply_layout (fun _ => True)).
    + by apply (frame_backup_current_layout (fun _ => True)).
    + by apply (frame_restore_backup (fun _ => True)).
    + apply (frame_show_usage (fun _ => True)).
  - intros prog cmd rest fs flt cfg Hl. split; [by apply load_config_boot|].
    split; [reflexivity|].
    by destruct (run_loaded prog cmd rest fs flt cfg Hl) as (-> & _).
Qed.

(** C9: with at least one argument the first thing a run does is open
    the configuration file, and a missing file or invalid JSON ends the
    run with status 1 before any command is dispatched, [help]
    included; with no argument the run prints the usage text and opens
    nothing. *)
Theorem config_loaded_before_dispatch :
  (forall prog cmd rest fs flt,
      let o := run (prog :: cmd :: rest) fs flt in
      head (trace (final o)) = Some (OpenRead config_path) /\
      (fs !! config_path = None ->
       exit_code o = 1%Z /\
       trace (final o) =
         [OpenRead config_path;
          Print ("Error: Configuration file not found at " ++ config_path)]) /\
      (forall b msg,
          fs !! config_path = Some b ->
          json_loads b = inr (BadJSON msg) ->
          exit_code o = 1%Z /\
          trace (final o) =
            [OpenRead config_path;
             Print ("Error: Invalid JSON in configuration file: " ++ msg)])) /\
  (forall argv fs flt,
      (length argv < 2)%nat ->
      let o := run argv fs flt in
      exit_code o = 1%Z /\
      trace (final o) = map Print usage_lines /\
      OpenRead config_path ∉ trace (final o)).
Proof.
  split.
  - intros prog cmd rest fs flt o. subst o. split; [|split].
    + destruct (fs !! config_path) as [b|] eqn:Eb.
      * destruct (json_loads b) as [cfg|[msg|msg]] eqn:Ej.
        -- assert (loads fs cfg) as Hl by (exists b; done).
           destruct (run_loaded prog cmd rest fs flt cfg Hl) as (_ & _ & Hp & _).
           by apply prefix_head.
        -- by rewrite (run_config_invalid _ _ _ _ _ _ _ Eb Ej).
        -- by rewrite (run_config_undecodable _ _ _ _ _ _ _ Eb Ej).
      * by rewrite (run_config_missing _ _ _ _ _ Eb).
    + intros Eb. by rewrite (run_config_missing _ _ _ _ _ Eb).
    + intros b msg Eb Ej. by rewrite (run_config_invalid _ _ _ _ _ _ _ Eb Ej).
  - intros argv fs flt Hlen o. subst o. rewrite (run_no_command _ _ _ Hlen).
    repeat split. cbn [final trace]. intros Hin.
    apply list_elem_of_fmap in Hin as (line & Hline & _). discriminate.
Qed.

Lemma apply_reaches_source config layout_id w cfg m info f :
  heap w !! config = Some cfg ->
  registry cfg = Some m ->
  dict_get layout_id m = Some info ->
  field info "file" = Some (JStr f) ->
  PathExists (joinpath script_dir f) ∈ trace (apply_layout config layout_id w).2.
Proof.
  intros Hh (top & -> & Ht)%registry_layouts Hm Hf.
  destruct info as [| | | | |members]; try done. simpl in Hf.
  set (src := joinpath script_dir f).
  assert (forall (m : M unit),
             stable (frame (fun _ => True)) m ->
             PathExists src ∈ trace (m (emit (PathExists src) w)).2) as Hrest.
  { intros k Hk. destruct (Hk (emit (PathExists src) w)) as (_ & _ & [l ->] & _).
    cbn [emit trace]. set_solver. }
  unfold apply_layout.
  erewrite (bind_eq (deref config)) by reflexivity. rewrite Hh. cbn [default from_option id].
  erewrite (bind_eq (subscript _ _)) by (unfold subscript; rewrite Ht; reflexivity).
  erewrite (bind_eq (contains _ _)) by reflexivity. rewrite Hm.
  erewrite (bind_eq (when _ _)) by reflexivity.
  erewrite (bind_eq (deref config)) by reflexivity. rewrite Hh. cbn [default from_option id].
  erewrite (bind_eq (subscript _ _)) by (unfold subscript; rewrite Ht; reflexivity).
  erewrite (bind_eq (subscript _ _)) by (unfold subscript; rewrite Hm; reflexivity).
  erewrite (bind_eq (subscript _ _)) by (unfold subscript; rewrite Hf; reflexivity).
  erewrite (bind_eq (join_script_dir _)) by reflexivity.
  erewrite (bind_eq (path_exists _)) by reflexivity.
  apply Hrest. frame_auto.
Qed.

(** C10: the command is matched after lowercasing, so every
    capitalisation of a command name runs that command; the layout id
    is looked up as it was typed, by exact string equality with the
    keys of the registry. *)
Theorem command_lowercased_id_exact :
  (forall prog cmd cmd' rest fs flt,
      lower cmd' = lower cmd ->
      run (prog :: cmd' :: rest) fs flt = run (prog :: cmd :: rest) fs flt) /\
  (forall prog cmd rest fs flt,
      run (prog :: cmd :: rest) fs flt = run (prog :: lower cmd :: rest) fs flt) /\
  (forall prog layout_id rest fs flt,
      run (prog :: "list" :: rest) fs flt =
        finish ((config <~ load_config ;; list_layouts config) (boot fs flt)) /\
      run (prog :: "apply" :: layout_id :: rest) fs flt =
        finish ((config <~ load_config ;;
                 backup_current_layout ;;
                 apply_layout config layout_id) (boot fs flt)) /\
      run (prog :: "backup" :: rest) fs flt =
        finish ((load_config ;; backup_current_layout) (boot fs flt)) /\
      run (prog :: "restore" :: rest) fs flt =
        finish ((load_config ;; restore_backup) (boot fs flt)) /\
      run (prog :: "help" :: rest) fs flt =
        finish ((load_config ;; show_usage) (boot fs flt))) /\
  (forall prog cmd layout_id rest fs flt cfg m,
      lower cmd = "apply" ->
      loads fs cfg ->
      registry cfg = Some m ->
      let o := run (prog :: cmd :: layout_id :: rest) fs flt in
      (dict_get layout_id m = None ->
       exit_code o = 1%Z /\
       ("Error: Layout '" ++ layout_id ++ "' not found.") ∈ stdout o) /\
      (forall info f,
          dict_get layout_id m = Some info ->
          field info "file" = Some (JStr f) ->
          PathExists (joinpath script_dir f) ∈ trace (final o))).
Proof.
  split; [|split; [|split]].
  - intros prog cmd cmd' rest fs flt Hc. unfold run. by rewrite !main_eq, Hc.
  - intros prog cmd rest fs flt. unfold run. by rewrite !main_eq, lower_idem.
  - intros prog layout_id rest fs flt. repeat split.
  - intros prog cmd layout_id rest fs flt cfg m Hc Hl Hr o. subst o.
    rewrite (run_apply _ _ _ _ _ _ _ Hc Hl). split.
    + intros Hm.
      rewrite (apply_unknown _ _ _ cfg m (loaded_heap_at_0 _ _ _) Hr Hm).
      split; [reflexivity|]. apply stdout_elem. cbn [finish final emit trace].
      set_solver.
    + intros info f Hm Hf.
      eapply elem_of_prefix; [|apply finish_trace].
      by eapply apply_reaches_source; [apply loaded_heap_at_0|..].
Qed.

(** C1, amended: each failure the script looks for, other than a
    failing copy in the backup step, prints its message on standard
    output and ends the run with status 1. *)
Theorem detected_failure_exits_nonzero argv fs flt msg :
  detected fs flt argv msg ->
  let o := run argv fs flt in
  exit_code o = 1%Z /\ msg ∈ stdout o.
Proof.
  intros Hd o. subst o.
  destruct Hd as
    [ prog cmd rest Eb
    | prog cmd rest b msg Eb Ej
    | prog cmd cfg Hc Hl
    | prog cmd layout_id rest cfg m Hc Hl Hr Hm
    | prog cmd layout_id rest cfg m info f Hc Hl Hr Hm Hf Hs
    | prog cmd layout_id rest cfg m info f e Hc Hl Hr Hm Hf [b Hs] He
    | prog cmd rest cfg Hc Hl Hb
    | prog cmd rest cfg e Hc Hl [b Hb] He
    | prog cmd rest cfg Hl _ Hn ].
  - rewrite (run_config_missing _ _ _ _ _ Eb).
    split; [reflexivity|]. apply stdout_elem. cbn [final trace]. set_solver.
  - rewrite (run_config_invalid _ _ _ _ _ _ _ Eb Ej).
    split; [reflexivity|]. apply stdout_elem. cbn [final trace]. set_solver.
  - rewrite (run_apply_no_id _ _ _ _ _ Hc Hl).
    split; [reflexivity|]. apply stdout_elem. cbn [final trace]. set_solver.
  - rewrite (run_apply _ _ _ _ _ _ _ Hc Hl).
    rewrite (apply_unknown _ _ _ cfg m (loaded_heap_at_0 _ _ _) Hr Hm).
    split; [reflexivity|]. apply stdout_elem. cbn [finish final emit trace].
    set_solver.
  - rewrite (run_apply _ _ _ _ _ _ _ Hc Hl).
    rewrite (apply_source_missing _ _ _ cfg m info f
               (loaded_heap_at_0 _ _ _) Hr Hm Hf Hs).
    split; [reflexivity|]. apply stdout_elem. cbn [finish final emit trace].
    set_solver.
  - rewrite (run_apply _ _ _ _ _ _ _ Hc Hl).
    destruct (apply_copy_fails 0%nat layout_id (at_apply fs flt cfg) cfg m info f b e)
      as (w' & ->); [apply loaded_heap_at_0|done..| |].
    { by rewrite at_apply_faults. }
    split; [reflexivity|]. apply stdout_elem. cbn [finish final emit trace].
    set_solver.
  - rewrite (run_restore _ _ _ _ _ _ Hc Hl).
    rewrite restore_missing by done.
    split; [reflexivity|]. apply stdout_elem. cbn [finish final emit trace].
    set_solver.
  - rewrite (run_restore _ _ _ _ _ _ Hc Hl).
    destruct (restore_fails (loaded fs flt cfg) b e) as (w' & ->); [done..|].
    split; [reflexivity|]. apply stdout_elem. cbn [finish final emit trace].
    set_solver.
  - rewrite (run_unknown _ _ _ _ _ _ Hl Hn).
    split; [reflexivity|]. apply stdout_elem. cbn [final].
    destruct (frame_show_usage (fun _ => True)
                (emit (Print ("Error: Unknown command '" ++ lower cmd ++ "'"))
                   (loaded fs flt cfg))) as (_ & _ & [l ->] & _).
    cbn [emit trace]. set_solver.
Qed.

(** C2, amended: [apply] with a layout id first backs the destination
    up (when it exists; the step never ends the run), then checks the
    id against the registry, exiting with status 1 on an unknown one,
    and only then copies the preset's source over the destination. *)
Theorem apply_backs_up_then_validates prog cmd layout_id rest fs flt cfg :
  lower cmd = "apply" ->
  loads fs cfg ->
  let w1 := loaded fs flt cfg in
  let w2 := at_apply fs flt cfg in
  let o := run (prog :: cmd :: layout_id :: rest) fs flt in
  backup_current_layout w1 = (inl tt, w2) /\
  (forall c, fs !! target_file = Some c ->
             copy_error flt target_file backup_file = None ->
             files w2 = <[backup_file := c]> fs) /\
  (fs !! target_file = None -> files w2 = fs) /\
  o = finish (apply_layout 0 layout_id w2) /\
  (forall m,
      registry cfg = Some m ->
      dict_get layout_id m = None ->
      exit_code o = 1%Z /\
      files (final o) = files w2 /\
      trace (final o) =
        (trace w2 ++
         [Print ("Error: Layout '" ++ layout_id ++ "' not found.");
          Print "Use 'list' command to see available layouts."])%list) /\
  (forall m info f b,
      registry cfg = Some m ->
      dict_get layout_id m = Some info ->
      field info "file" = Some (JStr f) ->
      files w2 !! joinpath script_dir f = Some b ->
      copy_error flt (joinpath script_dir f) target_file = None ->
      files (final o) = <[target_file := b]> (files w2)).
Proof.
  intros Hc Hl w1 w2 o. subst w1 w2 o.
  split; [apply backup_eq|].
  split; [intros c Ht He; by apply (backup_success (loaded fs flt cfg))|].
  split; [intros Ht; by apply (backup_nothing (loaded fs flt cfg))|].
  split; [by apply run_apply|].
  rewrite (run_apply _ _ _ _ _ _ _ Hc Hl). split.
  - intros m Hr Hm.
    rewrite (apply_unknown _ _ _ cfg m (loaded_heap_at_0 _ _ _) Hr Hm).
    cbn [finish final exit_code emit files trace].
    by rewrite <- app_assoc.
  - intros m info f b Hr Hm Hf Hs He. rewrite finish_files.
    apply (apply_copy_ok _ _ _ cfg m info f b); try done.
    + apply loaded_heap_at_0.
    + by rewrite at_apply_faults.
Qed.

(** C8, amended: when the configuration loads, a layout id is given
    and the backup copy succeeds, [apply] leaves in the backup file
    the bytes the destination held, also when the run then fails on
    an unknown id or a missing source file. *)
Theorem apply_overwrites_backup prog cmd layout_id rest fs flt cfg c :
  lower cmd = "apply" ->
  loads fs cfg ->
  fs !! target_file = Some c ->
  copy_error flt target_file backup_file = None ->
  let o := run (prog :: cmd :: layout_id :: rest) fs flt in
  files (final o) !! backup_file = Some c /\
  (forall m,
      registry cfg = Some m ->
      dict_get layout_id m = None ->
      exit_code o = 1%Z) /\
  (forall m info f,
      registry cfg = Some m ->
      dict_get layout_id m = Some info ->
      field info "file" = Some (JStr f) ->
      fs !! joinpath script_dir f = None ->
      joinpath script_dir f <> backup_file ->
      exit_code o = 1%Z).
Proof.
  intros Hc Hl Ht He o. subst o.
  rewrite (run_apply _ _ _ _ _ _ _ Hc Hl).
  assert (files (at_apply fs flt cfg) = <[backup_file := c]> fs) as Hw2.
  { by apply (backup_success (loaded fs flt cfg)). }
  assert (target_file <> backup_file) as Hne.
  { intros Heq. unfold copy_error in He.
    by destruct (decide (target_file = backup_file)). }
  split; [|split].
  - rewrite finish_files.
    destruct (frame_apply_layout (fun p => p = target_file) 0%nat layout_id eq_refl
                (at_apply fs flt cfg)) as (_ & _ & _ & Hp).
    rewrite Hp by (intros Heq; by apply Hne).
    rewrite Hw2. apply lookup_insert_eq.
  - intros m Hr Hm.
    by rewrite (apply_unknown _ _ _ cfg m (loaded_heap_at_0 _ _ _) Hr Hm).
  - intros m info f Hr Hm Hf Hs Hsrc.
    rewrite (apply_source_missing _ _ _ cfg m info f
               (loaded_heap_at_0 _ _ _) Hr Hm Hf); [done|].
    rewrite Hw2. by rewrite lookup_insert_ne.
Qed.
End Claims.

(** ** Further behaviour of the handlers *)

Section Handlers.
Context `{Runtime}.

Lemma copy_error_distinct flt src dst : copy_error flt src dst = None -> src <> dst.
Proof.
  unfold copy_error. intros He Heq. by destruct (decide (src = dst)).
Qed.

Lemma backup_nothing_eq w :
  files w !! target_file = None ->
  backup_current_layout w =
  (inl tt,
   emit (Print "No current layout file to backup.") (emit (PathExists target_file) w)).
Proof.
  intros Hn. unfold backup_current_layout. py_cbn. by rewrite (exists_no _ _ Hn).
Qed.

Lemma backup_success_eq w c :
  files w !! target_file = Some c ->
  copy_error (faults w) target_file backup_file = None ->
  backup_current_layout w =
  (inl tt,
   emit (Print ("✓ Current layout backed up to: " ++ backup_file))
     (set_files (<[backup_file := c]> (files w))
        (emit (Copy2 target_file backup_file) (emit (PathExists target_file) w)))).
Proof.
  intros Hc Hok. unfold backup_current_layout. py_cbn.
  rewrite (exists_yes _ _ _ Hc).
  rewrite (copy2_ok target_file backup_file _ c); [reflexivity|done|done].
Qed.

Lemma restore_ok_eq w b :
  files w !! backup_file = Some b ->
  copy_error (faults w) backup_file target_file = None ->
  restore_backup w =
  (inl tt,
   emit (Print "✓ Backup layout restored.")
     (set_files (<[target_file := b]> (files w))
        (emit (Copy2 backup_file target_file) (emit (PathExists backup_file) w)))).
Proof.
  intros Hs He. unfold restore_backup. py_cbn.
  rewrite (exists_yes _ _ _ Hs). py_cbn.
  rewrite (copy2_ok backup_file target_file _ b); [reflexivity|done|done].
Qed.

Lemma field_members info key v :
  field info key = Some v -> exists members, info = JObj members /\ dict_get key members = Some v.
Proof. destruct info; try done. simpl. eauto. Qed.

Lemma apply_ok_eq config layout_id w cfg m info f b name description :
  heap w !! config = Some cfg ->
  registry cfg = Some m ->
  dict_get layout_id m = Some info ->
  field info "file" = Some (JStr f) ->
  field info "name" = Some name ->
  field info "description" = Some description ->
  files w !! joinpath script_dir f = Some b ->
  copy_error (faults w) (joinpath script_dir f) target_file = None ->
  apply_layout config layout_id w =
  (inl tt,
   emit (Print (nl ++ "Restart the editor to see the new layout."))
     (emit (Print ("  File: " ++ f ++ " -> editor_layout.json"))
        (emit (Print ("  Description: " ++ fmt description))
           (emit (Print ("✓ Applied layout: " ++ fmt name))
              (set_files (<[target_file := b]> (files w))
                 (emit (Copy2 (joinpath script_dir f) target_file)
                    (emit (PathExists (joinpath script_dir f)) w))))))).
Proof.
  intros Hh (top & -> & Ht)%registry_layouts Hm
    (members & -> & Hf)%field_members Hn Hd Hs He.
  simpl in Hn, Hd.
  unfold apply_layout. py_cbn.
  repeat (first [rewrite Hh | rewrite Ht | rewrite Hm | rewrite Hf
                | rewrite Hn | rewrite Hd]; py_cbn).
  unfold join_script_dir. py_cbn.
  rewrite (exists_yes _ _ _ Hs). py_cbn.
  rewrite (copy2_ok _ target_file _ b); [|done|done].
  reflexivity.
Qed.

Lemma apply_nameless_eq config layout_id w cfg m info f b :
  heap w !! config = Some cfg ->
  registry cfg = Some m ->
  dict_get layout_id m = Some info ->
  field info "file" = Some (JStr f) ->
  field info "name" = None ->
  files w !! joinpath script_dir f = Some b ->
  copy_error (faults w) (joinpath script_dir f) target_file = None ->
  apply_layout config layout_id w =
  (inr (SystemExit 1),
   emit (Print "Error: Failed to copy layout file: 'name'")
     (set_files (<[target_file := b]> (files w))
        (emit (Copy2 (joinpath script_dir f) target_file)
           (emit (PathExists (joinpath script_dir f)) w)))).
Proof.
  intros Hh (top & -> & Ht)%registry_layouts Hm
    (members & -> & Hf)%field_members Hn Hs He.
  simpl in Hn.
  unfold apply_layout. py_cbn.
  repeat (first [rewrite Hh | rewrite Ht | rewrite Hm | rewrite Hf
                | rewrite Hn]; py_cbn).
  unfold join_script_dir. py_cbn.
  rewrite (exists_yes _ _ _ Hs). py_cbn.
  rewrite (copy2_ok _ target_file _ b); [|done|done].
  reflexivity.
Qed.

Lemma subscript_absent v key w :
  field v key = None ->
  exists e, subscript v key w = (inr e, w) /\ is_Exception e = true.
Proof.
  destruct v; simpl; eauto. intros ->. eauto.
Qed.

Lemma finish_exception e w :
  is_Exception e = true -> finish (inr e, w) = Outcome 1 (emit (Traceback e) w).
Proof. by destruct e. Qed.

End Handlers.

(** ** Further properties of the commands *)

Section Commands.
Context `{Runtime}.

(** X3: the [backup] command never fails once the configuration is loaded:
    it exits with status 0 and leaves the destination as it was; with
    no destination it changes nothing, and when the copy succeeds the
    backup file holds the destination's bytes. *)
Theorem backup_command prog cmd rest fs flt cfg :
  lower cmd = "backup" ->
  loads fs cfg ->
  let o := run (prog :: cmd :: rest) fs flt in
  exit_code o = 0%Z /\
  files (final o) !! target_file = fs !! target_file /\
  (fs !! target_file = None ->
   files (final o) = fs /\
   stdout o = ["No current layout file to backup."]) /\
  (forall c,
      fs !! target_file = Some c ->
      copy_error flt target_file backup_file = None ->
      files (final o) = <[backup_file := c]> fs /\
      stdout o = ["✓ Current layout backed up to: " ++ backup_file]).
Proof.
  intros Hc Hl o. subst o. rewrite (run_backup _ _ _ _ _ _ Hc Hl).
  split; [reflexivity|]. split; [apply backup_keeps_target|]. split.
  - intros Hn. by rewrite (backup_nothing_eq (loaded fs flt cfg)).
  - intros c Ht He. by rewrite (backup_success_eq (loaded fs flt cfg) c).
Qed.

(** X4: running [backup] twice in a row, both copies succeeding, leaves the
    files as one run does. *)
Theorem backup_twice prog1 cmd1 rest1 prog2 cmd2 rest2 fs flt1 flt2 cfg1 cfg2 c :
  lower cmd1 = "backup" ->
  lower cmd2 = "backup" ->
  fs !! target_file = Some c ->
  loads fs cfg1 ->
  copy_error flt1 target_file backup_file = None ->
  let o1 := run (prog1 :: cmd1 :: rest1) fs flt1 in
  loads (files (final o1)) cfg2 ->
  copy_error flt2 target_file backup_file = None ->
  let o2 := run (prog2 :: cmd2 :: rest2) (files (final o1)) flt2 in
  files (final o2) = files (final o1).
Proof.
  intros Hc1 Hc2 Ht Hl1 He1 o1 Hl2 He2 o2. subst o2 o1.
  rewrite (run_backup _ _ _ _ _ _ Hc1 Hl1) in *. cbn [final] in *.
  rewrite (backup_success (loaded fs flt1 cfg1) c Ht He1) in *.
  cbn [loaded files] in *.
  rewrite (run_backup _ _ _ _ _ _ Hc2 Hl2). cbn [final].
  rewrite (backup_success (loaded (<[backup_file := c]> fs) flt2 cfg2) c).
  - cbn [loaded files]. apply insert_insert_eq.
  - cbn [loaded files]. rewrite lookup_insert_ne; [done|].
    intros Heq. by apply (copy_error_distinct _ _ _ He1).
  - done.
Qed.

(** X5: a [restore] that finds the backup file and whose copy succeeds
    exits with status 0, writes the backup's bytes to the destination
    and nothing else: the backup file is kept. *)
Theorem restore_command prog cmd rest fs flt cfg b :
  lower cmd = "restore" ->
  loads fs cfg ->
  fs !! backup_file = Some b ->
  copy_error flt backup_file target_file = None ->
  let o := run (prog :: cmd :: rest) fs flt in
  exit_code o = 0%Z /\
  files (final o) = <[target_file := b]> fs /\
  files (final o) !! backup_file = Some b /\
  stdout o = ["✓ Backup layout restored."].
Proof.
  intros Hc Hl Hb He o. subst o. rewrite (run_restore _ _ _ _ _ _ Hc Hl).
  rewrite (restore_ok_eq (loaded fs flt cfg) b) by done.
  split; [reflexivity|]. split; [reflexivity|]. split; [|reflexivity].
  cbn [finish final emit set_files files loaded].
  rewrite lookup_insert_ne; [done|].
  intros Heq. by apply (copy_error_distinct _ _ _ He).
Qed.


Lemma at_apply_source fs flt cfg p :
  p <> backup_file -> files (at_apply fs flt cfg) !! p = fs !! p.
Proof.
  intros Hne.
  destruct (frame_backup_current_layout (fun q => q = backup_file) eq_refl
              (loaded fs flt cfg)) as (_ & _ & _ & Hp).
  by apply Hp.
Qed.

Lemma apply_run_files prog cmd layout_id rest fs flt cfg m info f b c :
  lower cmd = "apply" ->
  loads fs cfg ->
  registry cfg = Some m ->
  dict_get layout_id m = Some info ->
  field info "file" = Some (JStr f) ->
  fs !! target_file = Some c ->
  copy_error flt target_file backup_file = None ->
  fs !! joinpath script_dir f = Some b ->
  joinpath script_dir f <> backup_file ->
  copy_error flt (joinpath script_dir f) target_file = None ->
  files (final (run (prog :: cmd :: layout_id :: rest) fs flt)) =
  <[target_file := b]> (<[backup_file := c]> fs).
Proof.
  intros Hc Hl Hr Hm Hf Ht Heb Hs Hne He.
  rewrite (run_apply _ _ _ _ _ _ _ Hc Hl), finish_files.
  rewrite (apply_copy_ok _ _ _ cfg m info f b); try done.
  - unfold at_apply. by rewrite (backup_success (loaded fs flt cfg) c).
  - by rewrite at_apply_heap.
  - by rewrite at_apply_source.
  - by rewrite at_apply_faults.
Qed.

(** X6: a successful [apply] over an existing destination exits with
    status 0; the destination's old bytes are in the backup file, the
    preset's bytes in the destination, and five lines are printed. *)
Theorem apply_command
  prog cmd layout_id rest fs flt cfg m info f name description b c :
  lower cmd = "apply" ->
  loads fs cfg ->
  registry cfg = Some m ->
  dict_get layout_id m = Some info ->
  field info "file" = Some (JStr f) ->
  field info "name" = Some name ->
  field info "description" = Some description ->
  fs !! target_file = Some c ->
  copy_error flt target_file backup_file = None ->
  fs !! joinpath script_dir f = Some b ->
  joinpath script_dir f <> backup_file ->
  copy_error flt (joinpath script_dir f) target_file = None ->
  let o := run (prog :: cmd :: layout_id :: rest) fs flt in
  exit_code o = 0%Z /\
  files (final o) = <[target_file := b]> (<[backup_file := c]> fs) /\
  stdout o =
    [ "✓ Current layout backed up to: " ++ backup_file;
      "✓ Applied layout: " ++ fmt name;
      "  Description: " ++ fmt description;
      "  File: " ++ f ++ " -> editor_layout.json";
      nl ++ "Restart the editor to see the new layout." ].
Proof.
  intros Hc Hl Hr Hm Hf Hn Hd Ht Heb Hs Hne He o. subst o.
  rewrite (run_apply _ _ _ _ _ _ _ Hc Hl). unfold at_apply.
  rewrite (backup_success_eq (loaded fs flt cfg) c Ht Heb). cbn [snd].
  erewrite (apply_ok_eq 0%nat layout_id _ cfg m info f b name description);
    try done.
  cbn [emit set_files files loaded]. by rewrite lookup_insert_ne.
Qed.

(** X7: when the registry entry has no ["name"], [apply] still overwrites
    the destination with the preset's bytes, and then reports a copy
    failure and exits with status 1. *)
Theorem apply_entry_without_name
  prog cmd layout_id rest fs flt cfg m info f b :
  lower cmd = "apply" ->
  loads fs cfg ->
  registry cfg = Some m ->
  dict_get layout_id m = Some info ->
  field info "file" = Some (JStr f) ->
  field info "name" = None ->
  fs !! joinpath script_dir f = Some b ->
  joinpath script_dir f <> backup_file ->
  copy_error flt (joinpath script_dir f) target_file = None ->
  let o := run (prog :: cmd :: layout_id :: rest) fs flt in
  exit_code o = 1%Z /\
  files (final o) !! target_file = Some b /\
  last (stdout o) = Some "Error: Failed to copy layout file: 'name'".
Proof.
  intros Hc Hl Hr Hm Hf Hn Hs Hne He o. subst o.
  rewrite (run_apply _ _ _ _ _ _ _ Hc Hl).
  rewrite (apply_nameless_eq 0%nat layout_id _ cfg m info f b); try done.
  - split; [reflexivity|]. split.
    + cbn [finish final emit set_files files]. apply lookup_insert_eq.
    + unfold stdout. cbn [finish final emit set_files trace].
      rewrite omap_app. cbn [omap list_omap]. apply last_snoc.
  - by rewrite at_apply_heap.
  - by rewrite at_apply_source.
  - by rewrite at_apply_faults.
Qed.

(** X8: when the preset's source file is missing, [apply] exits with
    status 1 and the destination keeps its bytes; the backup step has
    already run. *)
Theorem apply_missing_source
  prog cmd layout_id rest fs flt cfg m info f :
  lower cmd = "apply" ->
  loads fs cfg ->
  registry cfg = Some m ->
  dict_get layout_id m = Some info ->
  field info "file" = Some (JStr f) ->
  fs !! joinpath script_dir f = None ->
  joinpath script_dir f <> backup_file ->
  let o := run (prog :: cmd :: layout_id :: rest) fs flt in
  exit_code o = 1%Z /\
  files (final o) !! target_file = fs !! target_file /\
  files (final o) = files (at_apply fs flt cfg) /\
  last (stdout o) =
    Some ("Error: Layout file '" ++ joinpath script_dir f ++ "' not found.").
Proof.
  intros Hc Hl Hr Hm Hf Hs Hne o. subst o.
  rewrite (run_apply _ _ _ _ _ _ _ Hc Hl).
  rewrite (apply_source_missing 0%nat layout_id _ cfg m info f); try done.
  - split; [reflexivity|]. cbn [finish final emit files]. split.
    + unfold at_apply. apply backup_keeps_target.
    + split; [reflexivity|]. unfold stdout. cbn [final emit trace].
      rewrite !omap_app. cbn [omap list_omap]. rewrite app_nil_r. apply last_snoc.
  - by rewrite at_apply_heap.
  - by rewrite at_apply_source.
Qed.

(** X9: [restore] after a successful [apply] undoes it: the destination
    holds again the bytes it had before the [apply]. *)
Theorem apply_then_restore
  prog1 cmd1 layout_id rest1 prog2 cmd2 rest2 fs flt1 flt2 cfg1 cfg2 m info f b c :
  lower cmd1 = "apply" ->
  lower cmd2 = "restore" ->
  loads fs cfg1 ->
  registry cfg1 = Some m ->
  dict_get layout_id m = Some info ->
  field info "file" = Some (JStr f) ->
  fs !! target_file = Some c ->
  copy_error flt1 target_file backup_file = None ->
  fs !! joinpath script_dir f = Some b ->
  joinpath script_dir f <> backup_file ->
  copy_error flt1 (joinpath script_dir f) target_file = None ->
  let o1 := run (prog1 :: cmd1 :: layout_id :: rest1) fs flt1 in
  loads (files (final o1)) cfg2 ->
  copy_error flt2 backup_file target_file = None ->
  let o2 := run (prog2 :: cmd2 :: rest2) (files (final o1)) flt2 in
  files (final o1) !! target_file = Some b /\
  exit_code o2 = 0%Z /\
  files (final o2) !! target_file = Some c /\
  files (final o2) = <[backup_file := c]> fs.
Proof.
  intros Hc1 Hc2 Hl1 Hr Hm Hf Ht Heb Hs Hne He o1 Hl2 He2 o2. subst o2 o1.
  rewrite (apply_run_files _ _ _ _ _ _ _ _ _ _ b c Hc1 Hl1 Hr Hm Hf Ht Heb Hs Hne He)
    in *.
  split; [apply lookup_insert_eq|].
  assert (backup_file <> target_file) as Hbt
    by apply (copy_error_distinct _ _ _ He2).
  rewrite (run_restore _ _ _ _ _ _ Hc2 Hl2).
  rewrite (restore_ok_eq _ c); [|cbn [loaded files]..]; [|by simplify_map_eq|done].
  cbn [finish final exit_code emit set_files files loaded].
  split; [reflexivity|]. split; [apply lookup_insert_eq|].
  rewrite insert_insert_eq. apply insert_id.
  rewrite lookup_insert_ne; done.
Qed.

(** X10: two successful [apply] runs in a row lose the layout that was in
    use before the first: the backup file then holds the bytes of the
    first preset. *)
Theorem apply_twice
  prog1 cmd1 id1 rest1 prog2 cmd2 id2 rest2 fs flt1 flt2 cfg1 cfg2
  m1 info1 f1 b1 m2 info2 f2 b2 c :
  lower cmd1 = "apply" ->
  lower cmd2 = "apply" ->
  loads fs cfg1 ->
  registry cfg1 = Some m1 ->
  dict_get id1 m1 = Some info1 ->
  field info1 "file" = Some (JStr f1) ->
  fs !! target_file = Some c ->
  copy_error flt1 target_file backup_file = None ->
  fs !! joinpath script_dir f1 = Some b1 ->
  joinpath script_dir f1 <> backup_file ->
  copy_error flt1 (joinpath script_dir f1) target_file = None ->
  let o1 := run (prog1 :: cmd1 :: id1 :: rest1) fs flt1 in
  loads (files (final o1)) cfg2 ->
  registry cfg2 = Some m2 ->
  dict_get id2 m2 = Some info2 ->
  field info2 "file" = Some (JStr f2) ->
  copy_error flt2 target_file backup_file = None ->
  files (final o1) !! joinpath script_dir f2 = Some b2 ->
  joinpath script_dir f2 <> backup_file ->
  copy_error flt2 (joinpath script_dir f2) target_file = None ->
  let o2 := run (prog2 :: cmd2 :: id2 :: rest2) (files (final o1)) flt2 in
  files (final o2) !! target_file = Some b2 /\
  files (final o2) !! backup_file = Some b1.
Proof.
  intros Hc1 Hc2 Hl1 Hr1 Hm1 Hf1 Ht Heb1 Hs1 Hne1 He1 o1
    Hl2 Hr2 Hm2 Hf2 Heb2 Hs2 Hne2 He2 o2. subst o2.
  assert (files (final o1) !! target_file = Some b1) as Ht2.
  { subst o1.
    rewrite (apply_run_files _ _ _ _ _ _ _ _ _ _ b1 c
               Hc1 Hl1 Hr1 Hm1 Hf1 Ht Heb1 Hs1 Hne1 He1).
    apply lookup_insert_eq. }
  rewrite (apply_run_files _ _ _ _ _ _ _ _ _ _ b2 b1
             Hc2 Hl2 Hr2 Hm2 Hf2 Ht2 Heb2 Hs2 Hne2 He2).
  split; [apply lookup_insert_eq|].
  rewrite lookup_insert_ne; [apply lookup_insert_eq|].
  by apply (copy_error_distinct _ _ _ Heb2).
Qed.

(** X11: [help], [-h] and [--help], in any capitalisation, print the usage
    text, exit with status 0 and change no file, whatever JSON value
    the configuration holds. *)
Theorem help_command prog cmd rest fs flt cfg :
  lower cmd ∈ ["help"; "-h"; "--help"] ->
  loads fs cfg ->
  let o := run (prog :: cmd :: rest) fs flt in
  exit_code o = 0%Z /\ stdout o = usage_lines /\ files (final o) = fs.
Proof.
  intros Hin Hl o. subst o. unfold run. rewrite main_eq.
  rewrite (bind_eq _ _ _ _ _ (load_config_boot _ _ _ Hl)).
  repeat (apply elem_of_cons in Hin as [->|Hin]; [by repeat split|]).
  by apply elem_of_nil in Hin.
Qed.

(** X12: a configuration that is valid JSON but has no ["layouts"] member
    makes [list] print its two header lines and then end on an
    uncaught exception, status 1; [apply] runs the backup step and
    then ends the same way, the destination untouched. *)
Theorem config_without_layouts prog cmd rest fs flt cfg :
  loads fs cfg ->
  field cfg "layouts" = None ->
  (lower cmd = "list" ->
   let o := run (prog :: cmd :: rest) fs flt in
   exit_code o = 1%Z /\
   stdout o = ["Available layouts:"; str_repeat "=" 50] /\
   files (final o) = fs) /\
  (lower cmd = "apply" ->
   forall layout_id,
     let o := run (prog :: cmd :: layout_id :: rest) fs flt in
     exit_code o = 1%Z /\
     files (final o) = files (at_apply fs flt cfg) /\
     files (final o) !! target_file = fs !! target_file).
Proof.
  intros Hl Hno. split.
  - intros Hc o. subst o. rewrite (run_list _ _ _ _ _ _ Hc Hl).
    unfold list_layouts.
    erewrite (bind_eq (print _)) by reflexivity.
    erewrite (bind_eq (print _)) by reflexivity.
    erewrite (bind_eq (deref _)) by reflexivity.
    cbn [emit heap loaded lookup list_lookup default from_option id].
    unfold bind.
    match goal with |- context [subscript cfg "layouts" ?w] =>
      destruct (subscript_absent cfg "layouts" w Hno) as (e & -> & He)
    end.
    rewrite (finish_exception _ _ He). by repeat split.
  - intros Hc layout_id o. subst o. rewrite (run_apply _ _ _ _ _ _ _ Hc Hl).
    unfold apply_layout.
    erewrite (bind_eq (deref _)) by reflexivity.
    rewrite at_apply_heap. cbn [lookup list_lookup default from_option id].
    unfold bind.
    destruct (subscript_absent cfg "layouts" (at_apply fs flt cfg) Hno)
      as (e & -> & He).
    rewrite (finish_exception _ _ He).
    split; [reflexivity|]. split; [reflexivity|].
    cbn [final emit files]. unfold at_apply. apply backup_keeps_target.
Qed.

(** X17: [apply] when there is no destination yet: nothing is backed up (the
    backup file is left as it was), the destination is created with
    the preset's bytes and the run exits with status 0. *)
Theorem apply_first_time
  prog cmd layout_id rest fs flt cfg m info f name description b :
  lower cmd = "apply" ->
  loads fs cfg ->
  registry cfg = Some m ->
  dict_get layout_id m = Some info ->
  field info "file" = Some (JStr f) ->
  field info "name" = Some name ->
  field info "description" = Some description ->
  fs !! target_file = None ->
  fs !! joinpath script_dir f = Some b ->
  copy_error flt (joinpath script_dir f) target_file = None ->
  let o := run (prog :: cmd :: layout_id :: rest) fs flt in
  exit_code o = 0%Z /\
  files (final o) = <[target_file := b]> fs /\
  hd_error (stdout o) = Some "No current layout file to backup.".
Proof.
  intros Hc Hl Hr Hm Hf Hn Hd Ht Hs He o. subst o.
  rewrite (run_apply _ _ _ _ _ _ _ Hc Hl). unfold at_apply.
  rewrite (backup_nothing_eq (loaded fs flt cfg) Ht). cbn [snd].
  erewrite (apply_ok_eq 0%nat layout_id _ cfg m info f b name description);
    done.
Qed.
End Commands.

(** ** The [list] command *)

Section ListCommand.
Context `{Runtime}.

Lemma emit_texts_app l1 l2 w : emit_texts l2 (emit_texts l1 w) = emit_texts (l1 ++ l2) w.
Proof. unfold emit_texts. cbn [files faults heap trace]. by rewrite map_app, app_assoc. Qed.

Lemma emit_texts_nil w : emit_texts [] w = w.
Proof. destruct w. unfold emit_texts. cbn. by rewrite app_nil_r. Qed.

Lemma join_joined sep v s w : joined v = Some s -> sep = ", " -> join sep v w = (inl s, w).
Proof.
  intros Hj ->. destruct v as [| | |s'|l|m]; try done; simpl in *.
  - by simplify_eq.
  - destruct (all_strings l); simpl in Hj; [|done]. by simplify_eq.
  - by simplify_eq.
Qed.

Lemma subscript_field v key x w : field v key = Some x -> subscript v key w = (inl x, w).
Proof. destruct v; try done. simpl. by intros ->. Qed.

Lemma entry_texts_length layout_id info ls :
  entry_texts layout_id info = Some ls -> length ls = 5%nat.
Proof.
  unfold entry_texts. repeat case_match; try done. by intros [= <-].
Qed.

Lemma listing_length m ls : listing m = Some ls -> length ls = (5 * length m)%nat.
Proof.
  revert ls. induction m as [|[layout_id info] m IH]; intros ls; simpl.
  - by intros [= <-].
  - destruct (entry_texts layout_id info) as [l1|] eqn:E1; [|done].
    destruct (listing m) as [l2|]; [|done]. intros [= <-].
    rewrite length_app, (entry_texts_length _ _ _ E1), (IH l2 eq_refl). lia.
Qed.


Lemma emit_print line w : emit (Print line) w = emit_texts [line] w.
Proof. reflexivity. Qed.

Lemma stdout_emit_texts ls fs flt cfg c :
  stdout (Outcome c (emit_texts ls (loaded fs flt cfg))) = ls.
Proof.
  unfold stdout. cbn [final emit_texts trace loaded]. cbn [app omap list_omap].
  induction ls as [|l ls IH]; [done|]. cbn [map omap list_omap]. by rewrite IH.
Qed.

(** The loop of [list_layouts] over entries that all have their fields. *)
Lemma list_layouts_ok config w cfg m lines :
  heap w !! config = Some cfg ->
  registry cfg = Some m ->
  listing m = Some lines ->
  list_layouts config w =
  (inl tt, emit_texts ("Available layouts:" :: str_repeat "=" 50 :: lines) w).
Proof.
  intros Hh (top & -> & Ht)%registry_layouts Hl. unfold list_layouts.
  erewrite (bind_eq (print _)) by reflexivity.
  erewrite (bind_eq (print _)) by reflexivity.
  erewrite (bind_eq (deref _)) by reflexivity.
  cbn [emit heap]. rewrite Hh. cbn [default from_option id].
  erewrite (bind_eq (subscript _ _)) by (by apply subscript_field).
  erewrite (bind_eq (items _)) by reflexivity.
  rewrite !emit_print, emit_texts_app. cbn [app].
  change ("Available layouts:" :: str_repeat "=" 50 :: lines)
    with (["Available layouts:"; str_repeat "=" 50] ++ lines)%list.
  rewrite <- (emit_texts_app ["Available layouts:"; str_repeat "=" 50] lines).
  generalize (emit_texts ["Available layouts:"; str_repeat "=" 50] w) as w0.
  clear Hh Ht. revert lines Hl.
  induction m as [|[layout_id info] m IH]; intros lines Hl w0.
  - injection Hl as <-. rewrite emit_texts_nil. reflexivity.
  - simpl in Hl.
    destruct (entry_texts layout_id info) as [ls|] eqn:E; [|done].
    destruct (listing m) as [rest|] eqn:Er; [|done]. injection Hl as <-.
    unfold entry_texts in E.
    destruct (field info "name") as [name|] eqn:En; [|done].
    destruct (field info "description") as [description|] eqn:Ed; [|done].
    destruct (field info "recommended_resolution") as [resolution|] eqn:Es; [|done].
    destruct (field info "use_cases") as [use_cases|] eqn:Eu; [|done].
    destruct (joined use_cases) as [cases|] eqn:Ej; [|done]. injection E as <-.
    cbn [for_each].
    rewrite <- emit_texts_app.
    erewrite bind_eq; [apply (IH rest eq_refl)|].
    erewrite (bind_eq (print _)) by reflexivity.
    erewrite (bind_eq (subscript _ _)) by (by apply subscript_field).
    erewrite (bind_eq (print _)) by reflexivity.
    erewrite (bind_eq (subscript _ _)) by (by apply subscript_field).
    erewrite (bind_eq (print _)) by reflexivity.
    erewrite (bind_eq (subscript _ _)) by (by apply subscript_field).
    erewrite (bind_eq (print _)) by reflexivity.
    erewrite (bind_eq (subscript _ _)) by (by apply subscript_field).
    erewrite (bind_eq (join _ _)) by (by apply join_joined).
    unfold print. rewrite !emit_print, !emit_texts_app. reflexivity.
Qed.

(** The loop of [list_layouts] when an entry has no ["name"]. *)
Lemma list_layouts_stops config w cfg good layout_id bad rest lines :
  heap w !! config = Some cfg ->
  registry cfg = Some (good ++ (layout_id, bad) :: rest)%list ->
  listing good = Some lines ->
  field bad "name" = None ->
  exists e,
    is_Exception e = true /\
    list_layouts config w =
    (inr e,
     emit_texts ("Available layouts:" :: str_repeat "=" 50 :: lines
                 ++ [(nl ++ layout_id ++ ":")%string])%list w).
Proof.
  intros Hh (top & -> & Ht)%registry_layouts Hl Hbad. unfold list_layouts.
  erewrite (bind_eq (print _)) by reflexivity.
  erewrite (bind_eq (print _)) by reflexivity.
  erewrite (bind_eq (deref _)) by reflexivity.
  cbn [emit heap]. rewrite Hh. cbn [default from_option id].
  erewrite (bind_eq (subscript _ _)) by (by apply subscript_field).
  erewrite (bind_eq (items _)) by reflexivity.
  rewrite !emit_print, emit_texts_app. cbn [app].
  rewrite <- (emit_texts_app ["Available layouts:"; str_repeat "=" 50]
                (lines ++ [(nl ++ layout_id ++ ":")%string])%list).
  generalize (emit_texts ["Available layouts:"; str_repeat "=" 50] w) as w0.
  clear Hh Ht. revert lines Hl.
  induction good as [|[good_id info] good IH]; intros lines Hl w0.
  - injection Hl as <-. cbn [app for_each].
    destruct (subscript_absent bad "name"
                (emit (Print (nl ++ layout_id ++ ":")) w0) Hbad) as (e & He & Hx).
    exists e. split; [done|].
    unfold bind at 1. erewrite (bind_eq (print _)) by reflexivity.
    unfold bind at 1. rewrite He. reflexivity.
  - simpl in Hl.
    destruct (entry_texts good_id info) as [ls|] eqn:E; [|done].
    destruct (listing good) as [more|] eqn:Er; [|done]. injection Hl as <-.
    unfold entry_texts in E.
    destruct (field info "name") as [name|] eqn:En; [|done].
    destruct (field info "description") as [description|] eqn:Ed; [|done].
    destruct (field info "recommended_resolution") as [resolution|] eqn:Es; [|done].
    destruct (field info "use_cases") as [use_cases|] eqn:Eu; [|done].
    destruct (joined use_cases) as [cases|] eqn:Ej; [|done]. injection E as <-.
    rewrite <- (app_comm_cons good). cbn [for_each]. rewrite <- (app_assoc _ more).
    rewrite <- (emit_texts_app
                  [ nl ++ good_id ++ ":"; "  Name: " ++ fmt name;
                    "  Description: " ++ fmt description;
                    "  Recommended Resolution: " ++ fmt resolution;
                    "  Use Cases: " ++ cases ]
                  (more ++ [(nl ++ layout_id ++ ":")%string])%list).
    destruct (IH more eq_refl
                (emit_texts [ nl ++ good_id ++ ":"; "  Name: " ++ fmt name;
                              "  Description: " ++ fmt description;
                              "  Recommended Resolution: " ++ fmt resolution;
                              "  Use Cases: " ++ cases ] w0)) as (e & Hx & IHe).
    exists e. split; [done|].
    erewrite bind_eq; [exact IHe|].
    erewrite (bind_eq (print _)) by reflexivity.
    erewrite (bind_eq (subscript _ _)) by (by apply subscript_field).
    erewrite (bind_eq (print _)) by reflexivity.
    erewrite (bind_eq (subscript _ _)) by (by apply subscript_field).
    erewrite (bind_eq (print _)) by reflexivity.
    erewrite (bind_eq (subscript _ _)) by (by apply subscript_field).
    erewrite (bind_eq (print _)) by reflexivity.
    erewrite (bind_eq (subscript _ _)) by (by apply subscript_field).
    erewrite (bind_eq (join _ _)) by (by apply join_joined).
    unfold print. rewrite !emit_print, !emit_texts_app. reflexivity.
Qed.

(** X1: [list] on a registry whose entries all have their fields exits
    with status 0, changes no file and calls [print] with the two
    header texts and then, for each entry in the order of the registry,
    with its five texts ([entry_texts]): 2 + 5N calls for N entries. *)
Theorem list_command prog cmd rest fs flt cfg m texts :
  lower cmd = "list" ->
  loads fs cfg ->
  registry cfg = Some m ->
  listing m = Some texts ->
  let o := run (prog :: cmd :: rest) fs flt in
  exit_code o = 0%Z /\
  stdout o = "Available layouts:" :: str_repeat "=" 50 :: texts /\
  length (stdout o) = (2 + 5 * length m)%nat /\
  files (final o) = fs.
Proof.
  intros Hc Hl Hr Hm o. subst o. rewrite (run_list _ _ _ _ _ _ Hc Hl).
  rewrite (list_layouts_ok 0%nat (loaded fs flt cfg) cfg m texts eq_refl Hr Hm).
  cbn [finish exit_code]. rewrite stdout_emit_texts.
  split; [done|]. split; [done|]. split; [|done].
  cbn [length]. by rewrite (listing_length _ _ Hm).
Qed.

(** X2: [list] stops at the first entry that has no ["name"]: the
    header and the entries before it are printed in full (five calls of
    [print] each), then the heading of that entry alone, and the run
    ends on an uncaught exception with status 1, no file changed. *)
Theorem list_entry_without_name
  prog cmd rest fs flt cfg good layout_id bad others texts :
  lower cmd = "list" ->
  loads fs cfg ->
  registry cfg = Some (good ++ (layout_id, bad) :: others)%list ->
  listing good = Some texts ->
  field bad "name" = None ->
  let o := run (prog :: cmd :: rest) fs flt in
  exit_code o = 1%Z /\
  stdout o = ("Available layouts:" :: str_repeat "=" 50 :: texts
              ++ [(nl ++ layout_id ++ ":")%string])%list /\
  files (final o) = fs.
Proof.
  intros Hc Hl Hr Hm Hbad o. subst o. rewrite (run_list _ _ _ _ _ _ Hc Hl).
  destruct (list_layouts_stops 0%nat (loaded fs flt cfg) cfg good layout_id bad
              others texts eq_refl Hr Hm Hbad) as (e & He & ->).
  rewrite (finish_exception _ _ He). cbn [exit_code].
  split; [done|]. split; [|done].
  unfold stdout. cbn [final emit trace]. rewrite omap_app.
  cbn [omap list_omap]. rewrite app_nil_r.
  apply (stdout_emit_texts _ fs flt cfg 0%Z).
Qed.
End ListCommand.

(** ** Invariants of every run *)

Section Invariant.
Context `{Runtime} (R : relation world) `{!PreOrder R}.
Hypothesis R_emit : forall e w, R w (emit e w).
Hypothesis R_alloc :
  forall v w, R w (World (files w) (faults w) (heap w ++ [v]) (trace w)).
Hypothesis R_copy :
  forall src dst, dst = target_file \/ dst = backup_file -> stable R (copy2 src dst).

Lemma inv_print line : stable R (print line).
Proof. intros w. apply R_emit. Qed.

Lemma inv_path_exists p : stable R (path_exists p).
Proof. intros w. apply R_emit. Qed.

Lemma inv_deref r : stable R (deref r).
Proof. intros w. simpl. reflexivity. Qed.

Lemma inv_open_read p : stable R (open_read p).
Proof. intros w. unfold open_read. destruct (files w !! p); apply R_emit. Qed.

Lemma inv_alloc v : stable R (alloc v).
Proof. intros w. apply R_alloc. Qed.

Lemma inv_join_script_dir v : stable R (join_script_dir v).
Proof. destruct v; simpl; first [by apply stable_ret | by apply stable_raise]. Qed.

Ltac inv_step :=
  first
    [ apply stable_bind; [typeclasses eauto| |intros ?]
    | apply stable_ret; typeclasses eauto
    | apply stable_raise; typeclasses eauto
    | apply stable_sys_exit; typeclasses eauto
    | apply inv_print
    | apply inv_path_exists
    | apply inv_deref
    | apply inv_open_read
    | apply inv_alloc
    | apply inv_join_script_dir
    | apply stable_subscript; typeclasses eauto
    | apply stable_contains; typeclasses eauto
    | apply stable_items; typeclasses eauto
    | apply stable_join; typeclasses eauto
    | apply stable_argv_at; typeclasses eauto
    | apply stable_when; [typeclasses eauto|]
    | apply stable_try_except;
      [typeclasses eauto| |apply stable_except_Exception; intros ?]
    | apply stable_for_each; [typeclasses eauto|intros [? ?]]
    | apply R_copy; auto ].

Lemma inv_load_config : stable R load_config.
Proof.
  unfold load_config. apply stable_try_except; [typeclasses eauto| |].
  - apply stable_bind; [typeclasses eauto|apply inv_open_read|intros text].
    destruct (json_loads text) as [v|[msg|msg]]; repeat inv_step.
  - intros e h. destruct e; try done; intros [= <-]; repeat inv_step.
Qed.

Lemma inv_list_layouts config : stable R (list_layouts config).
Proof. unfold list_layouts. repeat inv_step. Qed.

Lemma inv_show_usage : stable R show_usage.
Proof. unfold show_usage. repeat inv_step. Qed.

Lemma inv_apply_layout config layout_id : stable R (apply_layout config layout_id).
Proof. unfold apply_layout. repeat inv_step. Qed.

Lemma inv_backup_current_layout : stable R backup_current_layout.
Proof.
  unfold backup_current_layout.
  apply stable_bind; [typeclasses eauto|apply inv_path_exists|intros present].
  destruct present; repeat inv_step.
Qed.

Lemma inv_restore_backup : stable R restore_backup.
Proof. unfold restore_backup. repeat inv_step. Qed.

Lemma inv_main argv : stable R (main argv).
Proof.
  unfold main.
  apply stable_bind; [typeclasses eauto| |intros _].
  { apply stable_when; [typeclasses eauto|].
    apply stable_bind; [typeclasses eauto|apply inv_show_usage|intros _].
    inv_step. }
  apply stable_bind; [typeclasses eauto|inv_step|intros arg1].
  apply stable_bind; [typeclasses eauto|apply inv_load_config|intros config].
  repeat match goal with
         | |- stable _ (if ?b then _ else _) => destruct b
         end.
  - apply inv_list_layouts.
  - apply stable_bind; [typeclasses eauto|repeat inv_step|intros _].
    apply stable_bind; [typeclasses eauto|inv_step|intros layout_id].
    apply stable_bind; [typeclasses eauto| |intros _].
    + apply inv_backup_current_layout.
    + apply inv_apply_layout.
  - apply inv_backup_current_layout.
  - apply inv_restore_backup.
  - apply inv_show_usage.
  - apply stable_bind; [typeclasses eauto|inv_step|intros _].
    apply stable_bind; [typeclasses eauto|apply inv_show_usage|intros _].
    inv_step.
Qed.

(** A relation that every print, allocation and copy into the
    destination or the backup file respects relates the start of a run
    to its end. *)
Lemma run_invariant argv fs flt : R (boot fs flt) (final (run argv fs flt)).
Proof.
  unfold run. pose proof (inv_main argv (boot fs flt)) as Hm.
  destruct (main argv (boot fs flt)) as [[[]|e] w]; cbn [snd] in Hm; [done|].
  destruct e; cbn [finish final]; try done; (etrans; [exact Hm|apply R_emit]).
Qed.

End Invariant.

#[local] Instance same_outside_preorder T : PreOrder (same_outside T).
Proof.
  split.
  - by intros w p Hp.
  - intros w1 w2 w3 H12 H23 p Hp. by rewrite H23, H12.
Qed.

#[local] Instance nothing_lost_preorder : PreOrder nothing_lost.
Proof.
  split.
  - by intros w p Hp.
  - intros w1 w2 w3 H12 H23 p Hp. by apply H23, H12.
Qed.

Lemma copy2_files src dst w :
  files (copy2 src dst w).2 = files w \/
  exists b, files (copy2 src dst w).2 = <[dst := b]> (files w).
Proof.
  unfold copy2.
  destruct (decide (src = dst)); [by left|].
  destruct (files w !! src) as [c|]; [|by left].
  destruct (faults w src dst) as [[msg [k|]]|];
    cbn [fault_written fault_msg fst snd files emit set_files]; eauto.
Qed.

Section WholeRuns.
Context `{Runtime}.

Lemma same_outside_copy2 (T : path -> Prop) src dst :
  T dst -> stable (same_outside T) (copy2 src dst).
Proof.
  intros HT w p Hp. destruct (copy2_files src dst w) as [->|[b ->]]; [done|].
  apply lookup_insert_ne. intros Heq. apply Hp. by rewrite <- Heq.
Qed.

Lemma nothing_lost_copy2 src dst : stable nothing_lost (copy2 src dst).
Proof.
  intros w p Hp. destruct (copy2_files src dst w) as [->|[b ->]]; [done|].
  destruct (decide (p = dst)) as [->|Hne].
  - rewrite lookup_insert_eq. eauto.
  - by rewrite lookup_insert_ne.
Qed.

(** X14: whatever the arguments, the files and the copy faults, a run writes
    no file other than the destination and the backup file, and it
    removes no file. *)
Theorem run_writes_two_files argv fs flt p :
  (p <> target_file -> p <> backup_file ->
   files (final (run argv fs flt)) !! p = fs !! p) /\
  (is_Some (fs !! p) -> is_Some (files (final (run argv fs flt)) !! p)).
Proof.
  split.
  - intros Ht Hb.
    apply (run_invariant (same_outside (fun q => q = target_file \/ q = backup_file))).
    + by intros e w q Hq.
    + by intros v w q Hq.
    + intros src dst Hd. by apply same_outside_copy2.
    + by intros [?|?].
  - apply (run_invariant nothing_lost).
    + by intros e w q Hq.
    + by intros v w q Hq.
    + intros src dst _. apply nothing_lost_copy2.
Qed.

(** X13: only [apply], [backup] and [restore] can change a file.  At
    the end of a run every file is as it was when no command is given,
    when the configuration does not load, and when the command is ASCII
    text whose lowercase form is none of the three. *)
Theorem other_commands_write_nothing argv fs flt :
  (forall prog cmd rest cfg,
      argv = prog :: cmd :: rest ->
      loads fs cfg ->
      ascii_text cmd = true /\
      lower cmd ∉ ["apply"; "backup"; "restore"]) ->
  files (final (run argv fs flt)) = fs.
Proof.
  intros Hcmd.
  destruct argv as [|prog [|cmd rest]]; [reflexivity..|].
  pose proof (Hcmd prog cmd rest) as Hside. clear Hcmd.
  destruct (fs !! config_path) as [b|] eqn:Eb;
    [|by rewrite (run_config_missing _ _ _ _ _ Eb)].
  destruct (json_loads b) as [cfg|[msg|msg]] eqn:Ej;
    [|by rewrite (run_config_invalid _ _ _ _ _ _ _ Eb Ej)
     |by rewrite (run_config_undecodable _ _ _ _ _ _ _ Eb Ej)].
  assert (loads fs cfg) as Hl by (exists b; done).
  destruct (Hside cfg eq_refl Hl) as [_ Hnot]. clear Hside.
  assert (forall name, name ∈ ["apply"; "backup"; "restore"] ->
                       String.eqb (lower cmd) name = false) as Hne.
  { intros name Hin. apply String.eqb_neq. by intros <-. }
  unfold run. rewrite main_eq.
  rewrite (bind_eq _ _ _ _ _ (load_config_boot _ _ _ Hl)).
  rewrite (Hne "apply"), (Hne "backup"), (Hne "restore") by set_solver.
  match goal with |- context [finish (?D ?w)] =>
    assert (Hs : stable (frame (fun _ => False)) D)
  end.
  { repeat match goal with
           | |- stable _ (if ?b then _ else _) => destruct b
           end.
    - apply frame_list_layouts.
    - apply frame_show_usage.
    - apply stable_bind; [typeclasses eauto|frame_auto|intros _].
      apply stable_bind; [typeclasses eauto|apply frame_show_usage|intros _].
      frame_auto. }
  specialize (Hs (loaded fs flt cfg)).
  rewrite finish_files. by apply frame_files in Hs.
Qed.

End WholeRuns.

(** ** Exit status and error reports *)

Lemma quiet_snoc t e :
  quiet t -> (forall line, e = Print line -> error_report line = false) ->
  quiet (t ++ [e]).
Proof.
  intros Ht He line [Hin|Hin%list_elem_of_singleton]%elem_of_app; [by apply Ht|].
  by apply He.
Qed.

Lemma quiet_event t e :
  quiet t -> (forall line, e <> Print line) -> quiet (t ++ [e]).
Proof. intros Ht He. apply quiet_snoc; [done|]. intros line ->. by destruct (He line). Qed.

Section Disciplined.

Lemma d_ret {A} (a : A) : disciplined (ret a).
Proof. by intros w Hw. Qed.

Lemma d_raise {A} (e : exn) : is_Exception e = true -> disciplined (@raise A e).
Proof. intros He w Hw. unfold raise. by destruct e. Qed.

(** A block that always ends in [sys.exit(1)]. *)
Lemma d_exits {A} (m : M A) :
  (forall w, exists w', m w = (inr (SystemExit 1), w')) -> disciplined m.
Proof. intros Hm w Hw. by destruct (Hm w) as [w' ->]. Qed.

Lemma d_bind {A B} (m : M A) (k : A -> M B) :
  disciplined m -> (forall a, disciplined (k a)) -> disciplined (bind m k).
Proof.
  intros Hm Hk w Hw. unfold bind. specialize (Hm w Hw).
  destruct (m w) as [[a|e] w1]; [by apply Hk|]. by destruct e.
Qed.

Lemma d_try_except {A} (body : M A) (handler : exn -> option (M A)) :
  disciplined body ->
  (forall e h, handler e = Some h -> is_Exception e = true /\ disciplined h) ->
  disciplined (try_except body handler).
Proof.
  intros Hb Hh w Hw. unfold try_except. specialize (Hb w Hw).
  destruct (body w) as [[a|e] w1]; [done|].
  destruct (handler e) as [h|] eqn:E; [|done].
  destruct (Hh e h E) as [He Hd]. apply Hd. by destruct e.
Qed.

Lemma d_except_Exception {A} (h : exn -> M A) :
  (forall e, disciplined (h e)) ->
  forall e m, except_Exception h e = Some m -> is_Exception e = true /\ disciplined m.
Proof.
  intros Hh e m. unfold except_Exception.
  destruct (is_Exception e) eqn:E; [|done]. intros [= <-]. auto.
Qed.

Lemma d_when (c : bool) (m : M unit) : disciplined m -> disciplined (when c m).
Proof. destruct c; [done|]. intros _. apply d_ret. Qed.

Lemma d_for_each {A} (l : list A) (body : A -> M unit) :
  (forall x, disciplined (body x)) -> disciplined (for_each l body).
Proof.
  intros Hb. induction l as [|x l IH]; simpl; [apply d_ret|].
  apply d_bind; auto.
Qed.

Lemma d_print line : error_report line = false -> disciplined (print line).
Proof.
  intros Hl w Hw. cbn [print emit trace]. apply quiet_snoc; [done|].
  by intros ? [= <-].
Qed.

Lemma d_path_exists p : disciplined (path_exists p).
Proof. intros w Hw. cbn [path_exists emit trace]. by apply quiet_event. Qed.

Lemma d_deref r : disciplined (deref r).
Proof. by intros w Hw. Qed.

Lemma d_alloc v : disciplined (alloc v).
Proof. by intros w Hw. Qed.

Lemma d_open_read p : disciplined (open_read p).
Proof.
  intros w Hw. unfold open_read.
  destruct (files w !! p); cbn [emit trace]; by apply quiet_event.
Qed.

Lemma d_copy2 src dst : disciplined (copy2 src dst).
Proof.
  intros w Hw. unfold copy2.
  destruct (decide (src = dst)); [by apply quiet_event|].
  destruct (files w !! src); [|by apply quiet_event].
  destruct (faults w src dst) as [[msg [k|]]|];
    cbn [fault_written emit set_files trace]; by apply quiet_event.
Qed.

Lemma d_subscript v key : disciplined (subscript v key).
Proof.
  destruct v; simpl; try by apply d_raise.
  destruct (dict_get key members); [apply d_ret | by apply d_raise].
Qed.

Lemma d_contains v key : disciplined (contains v key).
Proof. destruct v; simpl; first [apply d_ret | by apply d_raise]. Qed.

Lemma d_items v : disciplined (items v).
Proof. destruct v; simpl; first [apply d_ret | by apply d_raise]. Qed.

Lemma d_join sep v : disciplined (join sep v).
Proof.
  destruct v as [| | | |l|m]; simpl; try first [apply d_ret | by apply d_raise].
  destruct (all_strings l); [apply d_ret | by apply d_raise].
Qed.

Lemma d_argv_at argv i : disciplined (argv_at argv i).
Proof.
  unfold argv_at. destruct (argv !! i); [apply d_ret | by apply d_raise].
Qed.

End Disciplined.

Ltac d_step :=
  first
    [ apply d_exits; intros ?; eexists; reflexivity
    | apply d_bind; [|intros ?]
    | apply d_ret
    | apply d_print; reflexivity
    | apply d_path_exists
    | apply d_deref
    | apply d_alloc
    | apply d_open_read
    | apply d_copy2
    | apply d_subscript
    | apply d_contains
    | apply d_items
    | apply d_join
    | apply d_argv_at
    | apply d_when
    | apply d_try_except; [|apply d_except_Exception; intros ?]
    | apply d_for_each; intros [? ?] ].

Section RunStatus.
Context `{Runtime}.

Lemma d_join_script_dir v : disciplined (join_script_dir v).
Proof. destruct v; simpl; first [apply d_ret | by apply d_raise]. Qed.

Lemma d_load_config : disciplined load_config.
Proof.
  unfold load_config. apply d_try_except.
  - apply d_bind; [apply d_open_read|intros text].
    destruct (json_loads text) as [v|[msg|msg]];
      first [apply d_alloc | by apply d_raise].
  - intros e h. destruct e; try done; intros [= <-]; (split; [done|]);
      apply d_exits; intros w; eexists; reflexivity.
Qed.

Lemma d_list_layouts config : disciplined (list_layouts config).
Proof. unfold list_layouts. repeat d_step. Qed.

Lemma d_show_usage : disciplined show_usage.
Proof. unfold show_usage. repeat d_step. Qed.

Lemma d_apply_layout config layout_id : disciplined (apply_layout config layout_id).
Proof. unfold apply_layout. repeat d_step. apply d_join_script_dir. Qed.

Lemma d_backup_current_layout : disciplined backup_current_layout.
Proof.
  unfold backup_current_layout.
  apply d_bind; [apply d_path_exists|intros present].
  destruct present; repeat d_step.
Qed.

Lemma d_restore_backup : disciplined restore_backup.
Proof. unfold restore_backup. repeat d_step. Qed.

Lemma d_main argv : disciplined (main argv).
Proof.
  unfold main.
  apply d_bind; [repeat d_step|intros _].
  apply d_bind; [apply d_argv_at|intros arg1].
  apply d_bind; [apply d_load_config|intros config].
  repeat match goal with
         | |- disciplined (if ?b then _ else _) => destruct b
         end.
  - apply d_list_layouts.
  - apply d_bind; [repeat d_step|intros _].
    apply d_bind; [apply d_argv_at|intros layout_id].
    apply d_bind; [apply d_backup_current_layout|intros _].
    apply d_apply_layout.
  - apply d_backup_current_layout.
  - apply d_restore_backup.
  - apply d_show_usage.
  - apply d_exits. intros w. eexists. reflexivity.
Qed.

Lemma quiet_boot fs flt : quiet (trace (boot fs flt)).
Proof. intros line Hin. by apply elem_of_nil in Hin. Qed.

(** X15: every run ends with status 0 or 1. *)
Theorem exit_status_0_or_1 argv fs flt :
  exit_code (run argv fs flt) = 0%Z \/ exit_code (run argv fs flt) = 1%Z.
Proof.
  unfold run. pose proof (d_main argv (boot fs flt) (quiet_boot fs flt)) as Hm.
  destruct (main argv (boot fs flt)) as [[[]|e] w]; [by left|].
  right. destruct e; simpl; done.
Qed.

(** X16: a run in which some call of [print] was given a text that
    starts with [Error:] ends with status 1: a run that exits with 0 has
    made no such call. *)
Theorem error_report_means_status_1 argv fs flt text :
  text ∈ stdout (run argv fs flt) ->
  error_report text = true ->
  exit_code (run argv fs flt) = 1%Z.
Proof.
  unfold run, stdout. intros Hin Herr.
  apply list_elem_of_omap in Hin as (e & Hin & He).
  destruct e as [l| | | |]; try done. injection He as ->.
  pose proof (d_main argv (boot fs flt) (quiet_boot fs flt)) as Hm.
  destruct (main argv (boot fs flt)) as [[[]|e] w].
  - cbn [finish final] in Hin. specialize (Hm _ Hin). congruence.
  - destruct e; cbn [finish exit_code]; done.
Qed.

End RunStatus.

(** ** The claims on the concrete installation *)

#[local] Existing Instance Demo.runtime.

Ltac demo_loads := exists Demo.config_text; split; vm_compute; reflexivity.

Ltac demo_present := eexists; vm_compute; reflexivity.

Ltac detected_side := first [done | vm_compute; reflexivity | demo_present].

(** C3 on the installation: [APPLY minimal]. *)
Lemma apply_unknown_id_keeps_destination_witness :
  lower "APPLY" = "apply" /\
  loads Demo.saved Demo.config /\
  registry Demo.config = Some Demo.layouts /\
  dict_get "minimal" Demo.layouts = None /\
  exit_code (run ["switch_layout.py"; "APPLY"; "minimal"] Demo.saved Demo.no_faults)
    = 1%Z /\
  files (final (run ["switch_layout.py"; "APPLY"; "minimal"] Demo.saved Demo.no_faults))
    !! target_file = Demo.saved !! target_file.
Proof.
  assert (lower "APPLY" = "apply") as Hc by reflexivity.
  assert (loads Demo.saved Demo.config) as Hl by demo_loads.
  assert (registry Demo.config = Some Demo.layouts) as Hr by reflexivity.
  assert (dict_get "minimal" Demo.layouts = None) as Hm by reflexivity.
  exact (conj Hc (conj Hl (conj Hr (conj Hm
    (apply_unknown_id_keeps_destination
       "switch_layout.py" "APPLY" "minimal" [] Demo.saved Demo.no_faults
       Demo.config Demo.layouts Hc Hl Hr Hm))))).
Defined.

(** C5 on the installation: [restore] with nothing saved. *)
Lemma restore_without_backup_witness :
  lower "restore" = "restore" /\
  Demo.in_use !! backup_file = None /\
  exit_code (run ["switch_layout.py"; "restore"] Demo.in_use Demo.no_faults) = 1%Z /\
  files (final (run ["switch_layout.py"; "restore"] Demo.in_use Demo.no_faults))
    = Demo.in_use /\
  files (final (run ["switch_layout.py"; "restore"] Demo.in_use Demo.no_faults))
    !! target_file = Demo.in_use !! target_file.
Proof.
  assert (lower "restore" = "restore") as Hc by reflexivity.
  assert (Demo.in_use !! backup_file = None) as Hb by (vm_compute; reflexivity).
  exact (conj Hc (conj Hb
    (restore_without_backup
       "switch_layout.py" "restore" [] Demo.in_use Demo.no_faults Hc Hb))).
Defined.

(** C6 on the installation: [apply developer]. *)
Lemma apply_known_id_copies_source_witness :
  lower "apply" = "apply" /\
  loads Demo.saved Demo.config /\
  registry Demo.config = Some Demo.layouts /\
  dict_get "developer" Demo.layouts = Some Demo.developer /\
  field Demo.developer "file" = Some (JStr "developer_layout.json") /\
  Demo.saved !! joinpath script_dir "developer_layout.json"
    = Some (Demo.bytes "developer preset") /\
  copy_error Demo.no_faults (joinpath script_dir "developer_layout.json") target_file
    = None /\
  exists b',
    files (final (run ["switch_layout.py"; "apply"; "developer"]
                    Demo.saved Demo.no_faults)) !! target_file = Some b' /\
    files (final (run ["switch_layout.py"; "apply"; "developer"]
                    Demo.saved Demo.no_faults))
      !! joinpath script_dir "developer_layout.json" = Some b' /\
    (joinpath script_dir "developer_layout.json" <> backup_file ->
     b' = Demo.bytes "developer preset").
Proof.
  assert (lower "apply" = "apply") as Hc by reflexivity.
  assert (loads Demo.saved Demo.config) as Hl by demo_loads.
  assert (registry Demo.config = Some Demo.layouts) as Hr by reflexivity.
  assert (dict_get "developer" Demo.layouts = Some Demo.developer) as Hm
    by reflexivity.
  assert (field Demo.developer "file" = Some (JStr "developer_layout.json")) as Hf
    by reflexivity.
  assert (Demo.saved !! joinpath script_dir "developer_layout.json"
          = Some (Demo.bytes "developer preset")) as Hs by (vm_compute; reflexivity).
  assert (copy_error Demo.no_faults
            (joinpath script_dir "developer_layout.json") target_file = None) as He
    by (vm_compute; reflexivity).
  exact (conj Hc (conj Hl (conj Hr (conj Hm (conj Hf (conj Hs (conj He
    (apply_known_id_copies_source
       "switch_layout.py" "apply" "developer" [] Demo.saved Demo.no_faults
       Demo.config Demo.layouts Demo.developer "developer_layout.json"
       (Demo.bytes "developer preset") Hc Hl Hr Hm Hf Hs He)))))))).
Defined.

(** C4 on the installation: [backup], then [restore]. *)
Lemma backup_restore_roundtrip_witness :
  lower "backup" = "backup" /\
  lower "restore" = "restore" /\
  Demo.saved !! target_file = Some (Demo.bytes "layout in use") /\
  loads Demo.saved Demo.config /\
  copy_error Demo.no_faults target_file backup_file = None /\
  loads (files (final (run ["switch_layout.py"; "backup"] Demo.saved Demo.no_faults)))
    Demo.config /\
  copy_error Demo.no_faults backup_file target_file = None /\
  exit_code (run ["switch_layout.py"; "backup"] Demo.saved Demo.no_faults) = 0%Z /\
  exit_code
    (run ["switch_layout.py"; "restore"]
       (files (final (run ["switch_layout.py"; "backup"] Demo.saved Demo.no_faults)))
       Demo.no_faults) = 0%Z /\
  files (final
    (run ["switch_layout.py"; "restore"]
       (files (final (run ["switch_layout.py"; "backup"] Demo.saved Demo.no_faults)))
       Demo.no_faults)) !! target_file = Some (Demo.bytes "layout in use").
Proof.
  assert (lower "backup" = "backup") as Hc1 by reflexivity.
  assert (lower "restore" = "restore") as Hc2 by reflexivity.
  assert (Demo.saved !! target_file = Some (Demo.bytes "layout in use")) as Ht
    by (vm_compute; reflexivity).
  assert (loads Demo.saved Demo.config) as Hl1 by demo_loads.
  assert (copy_error Demo.no_faults target_file backup_file = None) as He1
    by (vm_compute; reflexivity).
  assert (loads (files (final (run ["switch_layout.py"; "backup"]
                                 Demo.saved Demo.no_faults))) Demo.config) as Hl2
    by demo_loads.
  assert (copy_error Demo.no_faults backup_file target_file = None) as He2
    by (vm_compute; reflexivity).
  exact (conj Hc1 (conj Hc2 (conj Ht (conj Hl1 (conj He1 (conj Hl2 (conj He2
    (backup_restore_roundtrip
       "switch_layout.py" "backup" [] "switch_layout.py" "restore" []
       Demo.saved Demo.no_faults Demo.no_faults Demo.config Demo.config
       (Demo.bytes "layout in use") Hc1 Hc2 Ht Hl1 He1 Hl2 He2)))))))).
Defined.

(** C7 on the installation: the heap after [apply developer]. *)
Lemma registry_never_mutated_witness :
  loads Demo.saved Demo.config /\
  load_config (boot Demo.saved Demo.no_faults)
    = (inl 0%nat, loaded Demo.saved Demo.no_faults Demo.config) /\
  heap (loaded Demo.saved Demo.no_faults Demo.config) = [Demo.config] /\
  heap (final (run ["switch_layout.py"; "apply"; "developer"]
                 Demo.saved Demo.no_faults)) = [Demo.config].
Proof.
  assert (loads Demo.saved Demo.config) as Hl by demo_loads.
  exact (conj Hl
    (proj2 registry_never_mutated
       "switch_layout.py" "apply" ["developer"] Demo.saved Demo.no_faults
       Demo.config Hl)).
Defined.

(** C9 on the installation: [help] without and with a garbled
    configuration, and a run without arguments. *)
Lemma config_loaded_before_dispatch_witness :
  (Demo.unconfigured !! config_path = None /\
   exit_code (run ["switch_layout.py"; "help"] Demo.unconfigured Demo.no_faults)
     = 1%Z /\
   trace (final (run ["switch_layout.py"; "help"] Demo.unconfigured Demo.no_faults))
     = [OpenRead config_path;
        Print ("Error: Configuration file not found at " ++ config_path)]) /\
  (Demo.garbled !! config_path = Some (Demo.bytes "{") /\
   json_loads (Demo.bytes "{")
     = inr (BadJSON "Expecting value: line 1 column 1 (char 0)") /\
   exit_code (run ["switch_layout.py"; "help"] Demo.garbled Demo.no_faults) = 1%Z /\
   trace (final (run ["switch_layout.py"; "help"] Demo.garbled Demo.no_faults))
     = [OpenRead config_path;
        Print ("Error: Invalid JSON in configuration file: "
               ++ "Expecting value: line 1 column 1 (char 0)")]) /\
  ((length ["switch_layout.py"] < 2)%nat /\
   exit_code (run ["switch_layout.py"] Demo.unconfigured Demo.no_faults) = 1%Z /\
   trace (final (run ["switch_layout.py"] Demo.unconfigured Demo.no_faults))
     = map Print usage_lines /\
   OpenRead config_path
     ∉ trace (final (run ["switch_layout.py"] Demo.unconfigured Demo.no_faults))).
Proof.
  assert (Demo.unconfigured !! config_path = None) as Hn by (vm_compute; reflexivity).
  assert (Demo.garbled !! config_path = Some (Demo.bytes "{")) as Hb
    by (vm_compute; reflexivity).
  assert (json_loads (Demo.bytes "{")
          = inr (BadJSON "Expecting value: line 1 column 1 (char 0)")) as Hj
    by reflexivity.
  assert (length ["switch_layout.py"] < 2)%nat as Hlen by (simpl; lia).
  destruct config_loaded_before_dispatch as [Hargs Hnone].
  split; [|split].
  - exact (conj Hn
      (proj1 (proj2 (Hargs "switch_layout.py" "help" [] Demo.unconfigured
                       Demo.no_faults)) Hn)).
  - exact (conj Hb (conj Hj
      (proj2 (proj2 (Hargs "switch_layout.py" "help" [] Demo.garbled
                       Demo.no_faults)) _ _ Hb Hj))).
  - exact (conj Hlen
      (Hnone ["switch_layout.py"] Demo.unconfigured Demo.no_faults Hlen)).
Defined.

(** C10 on the installation: [LiSt] lists, [Apply Developer] is
    refused although [developer] is registered, [Apply developer]
    reaches the preset's file. *)
Lemma command_lowercased_id_exact_witness :
  (lower "LiSt" = lower "list" /\
   run ["switch_layout.py"; "LiSt"] Demo.saved Demo.no_faults
     = run ["switch_layout.py"; "list"] Demo.saved Demo.no_faults) /\
  (lower "Apply" = "apply" /\
   loads Demo.saved Demo.config /\
   registry Demo.config = Some Demo.layouts /\
   dict_get "Developer" Demo.layouts = None /\
   dict_get (lower "Developer") Demo.layouts = Some Demo.developer /\
   exit_code (run ["switch_layout.py"; "Apply"; "Developer"]
                Demo.saved Demo.no_faults) = 1%Z /\
   "Error: Layout 'Developer' not found."
     ∈ stdout (run ["switch_layout.py"; "Apply"; "Developer"]
                 Demo.saved Demo.no_faults)) /\
  (dict_get "developer" Demo.layouts = Some Demo.developer /\
   field Demo.developer "file" = Some (JStr "developer_layout.json") /\
   PathExists (joinpath script_dir "developer_layout.json")
     ∈ trace (final (run ["switch_layout.py"; "Apply"; "developer"]
                       Demo.saved Demo.no_faults))).
Proof.
  assert (lower "LiSt" = lower "list") as Hlist by reflexivity.
  assert (lower "Apply" = "apply") as Hc by reflexivity.
  assert (loads Demo.saved Demo.config) as Hl by demo_loads.
  assert (registry Demo.config = Some Demo.layouts) as Hr by reflexivity.
  assert (dict_get "Developer" Demo.layouts = None) as Hm by reflexivity.
  assert (dict_get (lower "Developer") Demo.layouts = Some Demo.developer) as Hm'
    by reflexivity.
  assert (dict_get "developer" Demo.layouts = Some Demo.developer) as Hk
    by reflexivity.
  assert (field Demo.developer "file" = Some (JStr "developer_layout.json")) as Hf
    by reflexivity.
  destruct command_lowercased_id_exact as (Hcase & _ & _ & Hid).
  split; [|split].
  - exact (conj Hlist
      (Hcase "switch_layout.py" "list" "LiSt" [] Demo.saved Demo.no_faults Hlist)).
  - exact (conj Hc (conj Hl (conj Hr (conj Hm (conj Hm'
      (proj1 (Hid "switch_layout.py" "Apply" "Developer" [] Demo.saved
                Demo.no_faults Demo.config Demo.layouts Hc Hl Hr) Hm)))))).
  - exact (conj Hk (conj Hf
      (proj2 (Hid "switch_layout.py" "Apply" "developer" [] Demo.saved
                Demo.no_faults Demo.config Demo.layouts Hc Hl Hr)
         Demo.developer "developer_layout.json" Hk Hf))).
Defined.

(** C1 fails as stated: the copy of the backup step is refused, the
    script prints a warning and the run ends with status 0. *)
Lemma backup_copy_failure_exits_zero :
  Demo.saved !! target_file = Some (Demo.bytes "layout in use") /\
  copy_error Demo.backup_denied target_file backup_file
    = Some (OSError "[Errno 13] Permission denied") /\
  stdout (run ["switch_layout.py"; "backup"] Demo.saved Demo.backup_denied)
    = ["Warning: Failed to backup current layout: [Errno 13] Permission denied"] /\
  exit_code (run ["switch_layout.py"; "backup"] Demo.saved Demo.backup_denied) = 0%Z.
Proof. vm_compute. repeat split. Qed.

(** C2 fails as stated: with an id that is not in the registry the
    destination is copied over the saved backup before the id is
    checked. *)
Lemma unknown_id_is_backed_up_first :
  registry Demo.config = Some Demo.layouts /\
  dict_get "minimal" Demo.layouts = None /\
  Demo.saved !! backup_file = Some (Demo.bytes "saved layout") /\
  exit_code (run ["switch_layout.py"; "apply"; "minimal"] Demo.saved Demo.no_faults)
    = 1%Z /\
  trace (final (run ["switch_layout.py"; "apply"; "minimal"]
                  Demo.saved Demo.no_faults))
    = [OpenRead config_path;
       PathExists target_file;
       Copy2 target_file backup_file;
       Print ("✓ Current layout backed up to: " ++ backup_file);
       Print "Error: Layout 'minimal' not found.";
       Print "Use 'list' command to see available layouts."] /\
  files (final (run ["switch_layout.py"; "apply"; "minimal"]
                  Demo.saved Demo.no_faults)) !! backup_file
    = Some (Demo.bytes "layout in use").
Proof. vm_compute. repeat split. Qed.

(** C8 fails as stated: the destination exists, yet the saved backup is
    kept when the backup copy is refused, when the configuration is
    missing, and when no layout id is given. *)
Lemma apply_may_keep_saved_backup :
  is_Some (Demo.saved !! target_file) /\
  is_Some (Demo.unconfigured !! target_file) /\
  Demo.saved !! target_file <> Some (Demo.bytes "saved layout") /\
  files (final (run ["switch_layout.py"; "apply"; "minimal"]
                  Demo.saved Demo.backup_denied)) !! backup_file
    = Some (Demo.bytes "saved layout") /\
  files (final (run ["switch_layout.py"; "apply"; "developer"]
                  Demo.unconfigured Demo.no_faults)) !! backup_file
    = Some (Demo.bytes "saved layout") /\
  files (final (run ["switch_layout.py"; "apply"] Demo.saved Demo.no_faults))
    !! backup_file = Some (Demo.bytes "saved layout").
Proof.
  split; [demo_present|]. split; [demo_present|].
  split; [vm_compute; discriminate|].
  vm_compute. repeat split.
Qed.

(** C1, amended, on the installation: one run for each failure. *)
Lemma detected_failure_exits_nonzero_witness :
  Forall (fun '(argv, fs, flt, msg) =>
            detected fs flt argv msg /\
            exit_code (run argv fs flt) = 1%Z /\
            msg ∈ stdout (run argv fs flt))
    Demo.failures.
Proof.
  assert (forall argv fs flt msg,
             detected fs flt argv msg ->
             detected fs flt argv msg /\
             exit_code (run argv fs flt) = 1%Z /\
             msg ∈ stdout (run argv fs flt)) as Hcase.
  { intros argv fs flt msg Hd.
    exact (conj Hd (detected_failure_exits_nonzero argv fs flt msg Hd)). }
  assert (loads Demo.saved Demo.config) as Hsaved by demo_loads.
  assert (loads Demo.preset_lost Demo.config) as Hlost by demo_loads.
  assert (loads Demo.in_use Demo.config) as Hin_use by demo_loads.
  assert (registry Demo.config = Some Demo.layouts) as Hr by reflexivity.
  assert (dict_get "developer" Demo.layouts = Some Demo.developer) as Hk
    by reflexivity.
  assert (field Demo.developer "file" = Some (JStr "developer_layout.json")) as Hf
    by reflexivity.
  unfold Demo.failures.
  repeat (apply List.Forall_cons; [apply Hcase|]); [..|apply List.Forall_nil].
  - refine (config_missing Demo.unconfigured Demo.no_faults
              "switch_layout.py" "help" [] _); detected_side.
  - refine (config_invalid Demo.garbled Demo.no_faults
              "switch_layout.py" "list" [] (Demo.bytes "{")
              "Expecting value: line 1 column 1 (char 0)" _ _); detected_side.
  - refine (layout_id_missing Demo.saved Demo.no_faults
              "switch_layout.py" "apply" Demo.config _ _); detected_side.
  - refine (layout_unknown Demo.saved Demo.no_faults
              "switch_layout.py" "apply" "minimal" [] Demo.config Demo.layouts
              _ _ _ _); detected_side.
  - refine (source_missing Demo.preset_lost Demo.no_faults
              "switch_layout.py" "apply" "developer" [] Demo.config Demo.layouts
              Demo.developer "developer_layout.json" _ _ _ _ _ _); detected_side.
  - refine (apply_copy_failed Demo.saved Demo.target_denied
              "switch_layout.py" "apply" "developer" [] Demo.config Demo.layouts
              Demo.developer "developer_layout.json"
              (OSError "[Errno 13] Permission denied") _ _ _ _ _ _ _); detected_side.
  - refine (backup_missing Demo.in_use Demo.no_faults
              "switch_layout.py" "restore" [] Demo.config _ _ _); detected_side.
  - refine (restore_copy_failed Demo.saved Demo.target_denied
              "switch_layout.py" "restore" [] Demo.config
              (OSError "[Errno 13] Permission denied") _ _ _ _); detected_side.
  - refine (command_unknown Demo.saved Demo.no_faults
              "switch_layout.py" "remove" [] Demo.config _ _ _);
      [done|reflexivity|].
    repeat (apply not_elem_of_cons; split; [discriminate|]).
    apply not_elem_of_nil.
Defined.

(** C2, amended, on the installation: the backup is taken, then
    [minimal] is refused and [developer] is copied. *)
Lemma apply_backs_up_then_validates_witness :
  lower "apply" = "apply" /\
  loads Demo.saved Demo.config /\
  backup_current_layout (loaded Demo.saved Demo.no_faults Demo.config)
    = (inl tt, at_apply Demo.saved Demo.no_faults Demo.config) /\
  files (at_apply Demo.saved Demo.no_faults Demo.config)
    = <[backup_file := Demo.bytes "layout in use"]> Demo.saved /\
  exit_code (run ["switch_layout.py"; "apply"; "minimal"] Demo.saved Demo.no_faults)
    = 1%Z /\
  files (final (run ["switch_layout.py"; "apply"; "minimal"]
                  Demo.saved Demo.no_faults))
    = <[backup_file := Demo.bytes "layout in use"]> Demo.saved /\
  files (final (run ["switch_layout.py"; "apply"; "developer"]
                  Demo.saved Demo.no_faults))
    = <[target_file := Demo.bytes "developer preset"]>
        (<[backup_file := Demo.bytes "layout in use"]> Demo.saved).
Proof.
  assert (lower "apply" = "apply") as Hc by reflexivity.
  assert (loads Demo.saved Demo.config) as Hl by demo_loads.
  assert (registry Demo.config = Some Demo.layouts) as Hr by reflexivity.
  assert (Demo.saved !! target_file = Some (Demo.bytes "layout in use")) as Ht
    by (vm_compute; reflexivity).
  assert (copy_error Demo.no_faults target_file backup_file = None) as He
    by (vm_compute; reflexivity).
  destruct (apply_backs_up_then_validates
              "switch_layout.py" "apply" "minimal" [] Demo.saved Demo.no_faults
              Demo.config Hc Hl) as (Hb & Hcopy & _ & _ & Hbad & _).
  destruct (apply_backs_up_then_validates
              "switch_layout.py" "apply" "developer" [] Demo.saved Demo.no_faults
              Demo.config Hc Hl) as (_ & _ & _ & _ & _ & Hgood).
  specialize (Hcopy _ Ht He).
  destruct (Hbad Demo.layouts Hr eq_refl) as (Hexit & Hfiles & _).
  specialize (Hgood Demo.layouts Demo.developer "developer_layout.json"
                (Demo.bytes "developer preset") Hr eq_refl eq_refl).
  rewrite Hcopy in Hfiles, Hgood.
  split; [exact Hc|]. split; [exact Hl|]. split; [exact Hb|].
  split; [exact Hcopy|]. split; [exact Hexit|]. split; [exact Hfiles|].
  apply Hgood; vm_compute; reflexivity.
Defined.

(** C8, amended, on the installation: [apply minimal] fails and has
    replaced the saved layout. *)
Lemma apply_overwrites_backup_witness :
  lower "apply" = "apply" /\
  loads Demo.saved Demo.config /\
  Demo.saved !! target_file = Some (Demo.bytes "layout in use") /\
  copy_error Demo.no_faults target_file backup_file = None /\
  registry Demo.config = Some Demo.layouts /\
  dict_get "minimal" Demo.layouts = None /\
  files (final (run ["switch_layout.py"; "apply"; "minimal"]
                  Demo.saved Demo.no_faults)) !! backup_file
    = Some (Demo.bytes "layout in use") /\
  exit_code (run ["switch_layout.py"; "apply"; "minimal"] Demo.saved Demo.no_faults)
    = 1%Z.
Proof.
  assert (lower "apply" = "apply") as Hc by reflexivity.
  assert (loads Demo.saved Demo.config) as Hl by demo_loads.
  assert (Demo.saved !! target_file = Some (Demo.bytes "layout in use")) as Ht
    by (vm_compute; reflexivity).
  assert (copy_error Demo.no_faults target_file backup_file = None) as He
    by (vm_compute; reflexivity).
  assert (registry Demo.config = Some Demo.layouts) as Hr by reflexivity.
  assert (dict_get "minimal" Demo.layouts = None) as Hm by reflexivity.
  destruct (apply_overwrites_backup
              "switch_layout.py" "apply" "minimal" [] Demo.saved Demo.no_faults
              Demo.config (Demo.bytes "layout in use") Hc Hl Ht He)
    as (Hbackup & Hunknown & _).
  exact (conj Hc (conj Hl (conj Ht (conj He (conj Hr (conj Hm
    (conj Hbackup (Hunknown Demo.layouts Hr Hm)))))))).
Defined.


(** ** The further properties on the concrete installations *)

Lemma and_witness (P Q : Prop) : P -> (P -> Q) -> P /\ Q.
Proof. intros HP HQ. exact (conj HP (HQ HP)). Defined.

Ltac draft_loads :=
  first [ exists Draft.config_text; split; vm_compute; reflexivity
        | exists Draft.array_text; split; vm_compute; reflexivity ].

Ltac side :=
  repeat match goal with |- _ /\ _ => split end;
  first [ reflexivity
        | vm_compute; reflexivity
        | demo_loads
        | draft_loads
        | vm_compute; discriminate ].

(** X1 on the installation: [list] calls [print] twelve times. *)
Lemma list_command_witness :
  (lower "list" = "list" /\
   loads Demo.saved Demo.config /\
   registry Demo.config = Some Demo.layouts /\
   listing Demo.layouts
     = Some (Draft.developer_texts ++ Draft.dual_monitor_texts)%list) /\
  exit_code (run ["switch_layout.py"; "list"] Demo.saved Demo.no_faults) = 0%Z /\
  stdout (run ["switch_layout.py"; "list"] Demo.saved Demo.no_faults)
    = "Available layouts:" :: str_repeat "=" 50
      :: (Draft.developer_texts ++ Draft.dual_monitor_texts)%list /\
  length (stdout (run ["switch_layout.py"; "list"] Demo.saved Demo.no_faults))
    = (2 + 5 * length Demo.layouts)%nat /\
  files (final (run ["switch_layout.py"; "list"] Demo.saved Demo.no_faults))
    = Demo.saved.
Proof.
  apply and_witness; [side|].
  intros (Hc & Hl & Hr & Hm).
  exact (list_command "switch_layout.py" "list" [] Demo.saved Demo.no_faults
           Demo.config Demo.layouts _ Hc Hl Hr Hm).
Defined.

(** X2 on the installation: [list] stops at the nameless entry. *)
Lemma list_entry_without_name_witness :
  (lower "list" = "list" /\
   @loads Draft.runtime Draft.saved Draft.config /\
   registry Draft.config
     = Some ([("developer", Demo.developer)]
             ++ ("broken", Draft.broken)
                :: [("dual_monitor", Demo.dual_monitor)])%list /\
   @listing Draft.runtime [("developer", Demo.developer)]
     = Some Draft.developer_texts /\
   field Draft.broken "name" = None) /\
  exit_code (@run Draft.runtime ["switch_layout.py"; "list"]
               Draft.saved Demo.no_faults) = 1%Z /\
  stdout (@run Draft.runtime ["switch_layout.py"; "list"]
            Draft.saved Demo.no_faults)
    = ("Available layouts:" :: str_repeat "=" 50 :: Draft.developer_texts
       ++ [(nl ++ "broken" ++ ":")%string])%list /\
  files (final (@run Draft.runtime ["switch_layout.py"; "list"]
                  Draft.saved Demo.no_faults)) = Draft.saved.
Proof.
  apply and_witness; [side|].
  intros (Hc & Hl & Hr & Hm & Hbad).
  exact (@list_entry_without_name Draft.runtime
           "switch_layout.py" "list" [] Draft.saved Demo.no_faults Draft.config
           _ "broken" Draft.broken _ _ Hc Hl Hr Hm Hbad).
Defined.

(** X3 on the installation: [backup] over a saved layout. *)
Lemma backup_command_witness :
  (lower "Backup" = "backup" /\ loads Demo.saved Demo.config) /\
  exit_code (run ["switch_layout.py"; "Backup"] Demo.saved Demo.no_faults) = 0%Z /\
  files (final (run ["switch_layout.py"; "Backup"] Demo.saved Demo.no_faults))
    !! target_file = Demo.saved !! target_file.
Proof.
  apply and_witness; [side|].
  intros (Hc & Hl).
  destruct (backup_command "switch_layout.py" "Backup" [] Demo.saved
              Demo.no_faults Demo.config Hc Hl) as (Hexit & Htarget & _).
  exact (conj Hexit Htarget).
Defined.

(** X4 on the installation: [backup] twice. *)
Lemma backup_twice_witness :
  (lower "backup" = "backup" /\
   Demo.in_use !! target_file = Some (Demo.bytes "layout in use") /\
   loads Demo.in_use Demo.config /\
   copy_error Demo.no_faults target_file backup_file = None /\
   loads (files (final (run ["switch_layout.py"; "backup"]
                          Demo.in_use Demo.no_faults))) Demo.config) /\
  files (final
    (run ["switch_layout.py"; "backup"]
       (files (final (run ["switch_layout.py"; "backup"]
                        Demo.in_use Demo.no_faults)))
       Demo.no_faults))
  = files (final (run ["switch_layout.py"; "backup"] Demo.in_use Demo.no_faults)).
Proof.
  apply and_witness; [side|].
  intros (Hc & Ht & Hl & He & Hl2).
  exact (backup_twice "switch_layout.py" "backup" [] "switch_layout.py" "backup" []
           Demo.in_use Demo.no_faults Demo.no_faults Demo.config Demo.config
           _ Hc Hc Ht Hl He Hl2 He).
Defined.

(** X5 on the installation: [restore] of the saved layout. *)
Lemma restore_command_witness :
  (lower "restore" = "restore" /\
   loads Demo.saved Demo.config /\
   Demo.saved !! backup_file = Some (Demo.bytes "saved layout") /\
   copy_error Demo.no_faults backup_file target_file = None) /\
  exit_code (run ["switch_layout.py"; "restore"] Demo.saved Demo.no_faults) = 0%Z /\
  files (final (run ["switch_layout.py"; "restore"] Demo.saved Demo.no_faults))
    = <[target_file := Demo.bytes "saved layout"]> Demo.saved /\
  files (final (run ["switch_layout.py"; "restore"] Demo.saved Demo.no_faults))
    !! backup_file = Some (Demo.bytes "saved layout") /\
  stdout (run ["switch_layout.py"; "restore"] Demo.saved Demo.no_faults)
    = ["✓ Backup layout restored."].
Proof.
  apply and_witness; [side|].
  intros (Hc & Hl & Hb & He).
  exact (restore_command "switch_layout.py" "restore" [] Demo.saved Demo.no_faults
           Demo.config _ Hc Hl Hb He).
Defined.

(** X6 on the installation: [apply developer] over a layout in use. *)
Lemma apply_command_witness :
  (lower "apply" = "apply" /\
   loads Demo.in_use Demo.config /\
   registry Demo.config = Some Demo.layouts /\
   dict_get "developer" Demo.layouts = Some Demo.developer /\
   field Demo.developer "file" = Some (JStr "developer_layout.json") /\
   field Demo.developer "name" = Some (JStr "Developer") /\
   field Demo.developer "description"
     = Some (JStr "Scene view with console and inspector") /\
   Demo.in_use !! target_file = Some (Demo.bytes "layout in use") /\
   copy_error Demo.no_faults target_file backup_file = None /\
   Demo.in_use !! joinpath script_dir "developer_layout.json"
     = Some (Demo.bytes "developer preset") /\
   joinpath script_dir "developer_layout.json" <> backup_file /\
   copy_error Demo.no_faults (joinpath script_dir "developer_layout.json")
     target_file = None) /\
  exit_code (run ["switch_layout.py"; "apply"; "developer"]
               Demo.in_use Demo.no_faults) = 0%Z /\
  files (final (run ["switch_layout.py"; "apply"; "developer"]
                  Demo.in_use Demo.no_faults))
    = <[target_file := Demo.bytes "developer preset"]>
        (<[backup_file := Demo.bytes "layout in use"]> Demo.in_use) /\
  stdout (run ["switch_layout.py"; "apply"; "developer"] Demo.in_use Demo.no_faults)
    = [ "✓ Current layout backed up to: " ++ backup_file;
        "✓ Applied layout: " ++ fmt (JStr "Developer");
        "  Description: " ++ fmt (JStr "Scene view with console and inspector");
        "  File: " ++ "developer_layout.json" ++ " -> editor_layout.json";
        nl ++ "Restart the editor to see the new layout." ].
Proof.
  apply and_witness; [side|].
  intros (Hc & Hl & Hr & Hm & Hf & Hn & Hd & Ht & Heb & Hs & Hne & He).
  exact (apply_command "switch_layout.py" "apply" "developer" [] Demo.in_use
           Demo.no_faults Demo.config Demo.layouts Demo.developer
           "developer_layout.json" _ _ _ _ Hc Hl Hr Hm Hf Hn Hd Ht Heb Hs Hne He).
Defined.

(** X7 on the installation: [apply broken] copies, then fails. *)
Lemma apply_entry_without_name_witness :
  (lower "apply" = "apply" /\
   @loads Draft.runtime Draft.saved Draft.config /\
   registry Draft.config = Some Draft.layouts /\
   dict_get "broken" Draft.layouts = Some Draft.broken /\
   field Draft.broken "file" = Some (JStr "developer_layout.json") /\
   field Draft.broken "name" = None /\
   Draft.saved !! @joinpath Draft.runtime (@script_dir Draft.runtime)
                    "developer_layout.json"
     = Some (Demo.bytes "developer preset") /\
   @joinpath Draft.runtime (@script_dir Draft.runtime) "developer_layout.json"
     <> @backup_file Draft.runtime /\
   @copy_error Demo.no_faults
     (@joinpath Draft.runtime (@script_dir Draft.runtime) "developer_layout.json")
     (@target_file Draft.runtime) = None) /\
  exit_code (@run Draft.runtime ["switch_layout.py"; "apply"; "broken"]
               Draft.saved Demo.no_faults) = 1%Z /\
  files (final (@run Draft.runtime ["switch_layout.py"; "apply"; "broken"]
                  Draft.saved Demo.no_faults)) !! @target_file Draft.runtime
    = Some (Demo.bytes "developer preset") /\
  last (stdout (@run Draft.runtime ["switch_layout.py"; "apply"; "broken"]
                  Draft.saved Demo.no_faults))
    = Some "Error: Failed to copy layout file: 'name'".
Proof.
  apply and_witness; [side|].
  intros (Hc & Hl & Hr & Hm & Hf & Hn & Hs & Hne & He).
  exact (@apply_entry_without_name Draft.runtime
           "switch_layout.py" "apply" "broken" [] Draft.saved Demo.no_faults
           Draft.config Draft.layouts Draft.broken "developer_layout.json" _
           Hc Hl Hr Hm Hf Hn Hs Hne He).
Defined.

(** X8 on the installation: [apply developer] when the preset is gone. *)
Lemma apply_missing_source_witness :
  (lower "apply" = "apply" /\
   loads Demo.preset_lost Demo.config /\
   registry Demo.config = Some Demo.layouts /\
   dict_get "developer" Demo.layouts = Some Demo.developer /\
   field Demo.developer "file" = Some (JStr "developer_layout.json") /\
   Demo.preset_lost !! joinpath script_dir "developer_layout.json" = None /\
   joinpath script_dir "developer_layout.json" <> backup_file) /\
  exit_code (run ["switch_layout.py"; "apply"; "developer"]
               Demo.preset_lost Demo.no_faults) = 1%Z /\
  files (final (run ["switch_layout.py"; "apply"; "developer"]
                  Demo.preset_lost Demo.no_faults)) !! target_file
    = Demo.preset_lost !! target_file.
Proof.
  apply and_witness; [side|].
  intros (Hc & Hl & Hr & Hm & Hf & Hs & Hne).
  destruct (apply_missing_source "switch_layout.py" "apply" "developer" []
              Demo.preset_lost Demo.no_faults Demo.config Demo.layouts
              Demo.developer "developer_layout.json" Hc Hl Hr Hm Hf Hs Hne)
    as (Hexit & Htarget & _).
  exact (conj Hexit Htarget).
Defined.

(** X9 on the installation: [apply developer], then [restore]. *)
Lemma apply_then_restore_witness :
  (lower "apply" = "apply" /\
   lower "restore" = "restore" /\
   loads Demo.in_use Demo.config /\
   registry Demo.config = Some Demo.layouts /\
   dict_get "developer" Demo.layouts = Some Demo.developer /\
   field Demo.developer "file" = Some (JStr "developer_layout.json") /\
   Demo.in_use !! target_file = Some (Demo.bytes "layout in use") /\
   copy_error Demo.no_faults target_file backup_file = None /\
   Demo.in_use !! joinpath script_dir "developer_layout.json"
     = Some (Demo.bytes "developer preset") /\
   joinpath script_dir "developer_layout.json" <> backup_file /\
   copy_error Demo.no_faults (joinpath script_dir "developer_layout.json")
     target_file = None /\
   loads (files (final (run ["switch_layout.py"; "apply"; "developer"]
                          Demo.in_use Demo.no_faults))) Demo.config /\
   copy_error Demo.no_faults backup_file target_file = None) /\
  files (final (run ["switch_layout.py"; "apply"; "developer"]
                  Demo.in_use Demo.no_faults)) !! target_file
    = Some (Demo.bytes "developer preset") /\
  files (final
    (run ["switch_layout.py"; "restore"]
       (files (final (run ["switch_layout.py"; "apply"; "developer"]
                        Demo.in_use Demo.no_faults)))
       Demo.no_faults)) !! target_file = Some (Demo.bytes "layout in use").
Proof.
  apply and_witness; [side|].
  intros (Hc1 & Hc2 & Hl & Hr & Hm & Hf & Ht & Heb & Hs & Hne & He & Hl2 & He2).
  destruct (apply_then_restore
              "switch_layout.py" "apply" "developer" []
              "switch_layout.py" "restore" []
              Demo.in_use Demo.no_faults Demo.no_faults Demo.config Demo.config
              Demo.layouts Demo.developer "developer_layout.json" _ _
              Hc1 Hc2 Hl Hr Hm Hf Ht Heb Hs Hne He Hl2 He2)
    as (Happlied & _ & Hback & _).
  exact (conj Happlied Hback).
Defined.

(** X10 on the installation: [apply developer], then
    [apply dual_monitor]. *)
Lemma apply_twice_witness :
  (lower "apply" = "apply" /\
   loads Demo.in_use Demo.config /\
   registry Demo.config = Some Demo.layouts /\
   dict_get "developer" Demo.layouts = Some Demo.developer /\
   field Demo.developer "file" = Some (JStr "developer_layout.json") /\
   Demo.in_use !! target_file = Some (Demo.bytes "layout in use") /\
   copy_error Demo.no_faults target_file backup_file = None /\
   Demo.in_use !! joinpath script_dir "developer_layout.json"
     = Some (Demo.bytes "developer preset") /\
   joinpath script_dir "developer_layout.json" <> backup_file /\
   copy_error Demo.no_faults (joinpath script_dir "developer_layout.json")
     target_file = None /\
   loads (files (final (run ["switch_layout.py"; "apply"; "developer"]
                          Demo.in_use Demo.no_faults))) Demo.config /\
   dict_get "dual_monitor" Demo.layouts = Some Demo.dual_monitor /\
   field Demo.dual_monitor "file" = Some (JStr "dual_monitor_layout.json") /\
   files (final (run ["switch_layout.py"; "apply"; "developer"]
                   Demo.in_use Demo.no_faults))
     !! joinpath script_dir "dual_monitor_layout.json"
     = Some (Demo.bytes "dual monitor preset") /\
   joinpath script_dir "dual_monitor_layout.json" <> backup_file /\
   copy_error Demo.no_faults (joinpath script_dir "dual_monitor_layout.json")
     target_file = None) /\
  files (final
    (run ["switch_layout.py"; "apply"; "dual_monitor"]
       (files (final (run ["switch_layout.py"; "apply"; "developer"]
                        Demo.in_use Demo.no_faults)))
       Demo.no_faults)) !! target_file = Some (Demo.bytes "dual monitor preset") /\
  files (final
    (run ["switch_layout.py"; "apply"; "dual_monitor"]
       (files (final (run ["switch_layout.py"; "apply"; "developer"]
                        Demo.in_use Demo.no_faults)))
       Demo.no_faults)) !! backup_file = Some (Demo.bytes "developer preset").
Proof.
  apply and_witness; [side|].
  intros (Hc & Hl & Hr & Hm1 & Hf1 & Ht & Heb & Hs1 & Hne1 & He1
          & Hl2 & Hm2 & Hf2 & Hs2 & Hne2 & He2).
  exact (apply_twice
           "switch_layout.py" "apply" "developer" []
           "switch_layout.py" "apply" "dual_monitor" []
           Demo.in_use Demo.no_faults Demo.no_faults Demo.config Demo.config
           Demo.layouts Demo.developer "developer_layout.json" _
           Demo.layouts Demo.dual_monitor "dual_monitor_layout.json" _ _
           Hc Hc Hl Hr Hm1 Hf1 Ht Heb Hs1 Hne1 He1
           Hl2 Hr Hm2 Hf2 Heb Hs2 Hne2 He2).
Defined.

(** X11 on the installation: [-H]. *)
Lemma help_command_witness :
  (lower "-H" ∈ ["help"; "-h"; "--help"] /\ loads Demo.saved Demo.config) /\
  exit_code (run ["switch_layout.py"; "-H"] Demo.saved Demo.no_faults) = 0%Z /\
  stdout (run ["switch_layout.py"; "-H"] Demo.saved Demo.no_faults) = usage_lines /\
  files (final (run ["switch_layout.py"; "-H"] Demo.saved Demo.no_faults))
    = Demo.saved.
Proof.
  apply and_witness.
  - split; [|demo_loads]. apply list_elem_of_further, list_elem_of_here.
  - intros (Hin & Hl).
    exact (help_command "switch_layout.py" "-H" [] Demo.saved Demo.no_faults
             Demo.config Hin Hl).
Defined.

(** X12 on the installation: the configuration is an array. *)
Lemma config_without_layouts_witness :
  (@loads Draft.runtime Draft.with_array (JArr []) /\
   field (JArr []) "layouts" = None /\
   lower "list" = "list" /\
   lower "apply" = "apply") /\
  (exit_code (@run Draft.runtime ["switch_layout.py"; "list"]
                Draft.with_array Demo.no_faults) = 1%Z /\
   stdout (@run Draft.runtime ["switch_layout.py"; "list"]
             Draft.with_array Demo.no_faults)
     = ["Available layouts:"; str_repeat "=" 50]) /\
  (exit_code (@run Draft.runtime ["switch_layout.py"; "apply"; "developer"]
                Draft.with_array Demo.no_faults) = 1%Z /\
   files (final (@run Draft.runtime ["switch_layout.py"; "apply"; "developer"]
                   Draft.with_array Demo.no_faults)) !! @target_file Draft.runtime
     = Draft.with_array !! @target_file Draft.runtime).
Proof.
  apply and_witness; [side|].
  intros (Hl & Hno & Hlist & Happly).
  destruct (@config_without_layouts Draft.runtime "switch_layout.py" "list" []
              Draft.with_array Demo.no_faults (JArr []) Hl Hno) as [Hcase _].
  destruct (Hcase Hlist) as (Hexit & Hout & _).
  destruct (@config_without_layouts Draft.runtime "switch_layout.py" "apply" []
              Draft.with_array Demo.no_faults (JArr []) Hl Hno) as [_ Hcase'].
  destruct (Hcase' Happly "developer") as (Hexit' & _ & Htarget).
  exact (conj (conj Hexit Hout) (conj Hexit' Htarget)).
Defined.

(** X13 on the installation: [list] writes nothing. *)
Lemma other_commands_write_nothing_witness :
  (forall prog cmd rest cfg,
      ["switch_layout.py"; "list"] = prog :: cmd :: rest ->
      loads Demo.saved cfg ->
      ascii_text cmd = true /\
      lower cmd ∉ ["apply"; "backup"; "restore"]) /\
  files (final (run ["switch_layout.py"; "list"] Demo.saved Demo.no_faults))
    = Demo.saved.
Proof.
  apply and_witness.
  - intros prog cmd rest cfg [= <- <- <-] _. split; [reflexivity|].
    repeat (apply not_elem_of_cons; split; [discriminate|]).
    apply not_elem_of_nil.
  - intros Hcmd.
    exact (other_commands_write_nothing ["switch_layout.py"; "list"]
             Demo.saved Demo.no_faults Hcmd).
Defined.

(** X14 on the installation: a failing [apply] keeps the presets and
    the configuration. *)
Lemma run_writes_two_files_witness :
  (config_path <> target_file /\ config_path <> backup_file /\
   is_Some (Demo.saved !! config_path)) /\
  files (final (run ["switch_layout.py"; "apply"; "minimal"]
                  Demo.saved Demo.target_denied)) !! config_path
    = Demo.saved !! config_path /\
  is_Some (files (final (run ["switch_layout.py"; "apply"; "minimal"]
                           Demo.saved Demo.target_denied)) !! config_path).
Proof.
  apply and_witness.
  - split; [vm_compute; discriminate|]. split; [vm_compute; discriminate|].
    demo_present.
  - intros (Ht & Hb & Hsome).
    destruct (run_writes_two_files ["switch_layout.py"; "apply"; "minimal"]
                Demo.saved Demo.target_denied config_path) as [Hsame Hkept].
    exact (conj (Hsame Ht Hb) (Hkept Hsome)).
Defined.

(** X16 on the installation: [apply minimal] reports the unknown id in
    one call of [print] and exits with 1. *)
Lemma error_report_means_status_1_witness :
  ("Error: Layout 'minimal' not found."
     ∈ stdout (run ["switch_layout.py"; "apply"; "minimal"]
                 Demo.saved Demo.no_faults) /\
   error_report "Error: Layout 'minimal' not found." = true) /\
  exit_code (run ["switch_layout.py"; "apply"; "minimal"] Demo.saved Demo.no_faults)
    = 1%Z.
Proof.
  apply and_witness.
  - split; [|reflexivity].
    apply list_elem_of_In. vm_compute. auto.
  - intros (Hin & Herr).
    exact (error_report_means_status_1 ["switch_layout.py"; "apply"; "minimal"]
             Demo.saved Demo.no_faults _ Hin Herr).
Defined.

(** X17 on the installation: [apply developer] with no layout in use. *)
Lemma apply_first_time_witness :
  (lower "apply" = "apply" /\
   loads Demo.presets Demo.config /\
   registry Demo.config = Some Demo.layouts /\
   dict_get "developer" Demo.layouts = Some Demo.developer /\
   field Demo.developer "file" = Some (JStr "developer_layout.json") /\
   field Demo.developer "name" = Some (JStr "Developer") /\
   field Demo.developer "description"
     = Some (JStr "Scene view with console and inspector") /\
   Demo.presets !! target_file = None /\
   Demo.presets !! joinpath script_dir "developer_layout.json"
     = Some (Demo.bytes "developer preset") /\
   copy_error Demo.no_faults (joinpath script_dir "developer_layout.json")
     target_file = None) /\
  exit_code (run ["switch_layout.py"; "apply"; "developer"]
               Demo.presets Demo.no_faults) = 0%Z /\
  files (final (run ["switch_layout.py"; "apply"; "developer"]
                  Demo.presets Demo.no_faults))
    = <[target_file := Demo.bytes "developer preset"]> Demo.presets /\
  hd_error (stdout (run ["switch_layout.py"; "apply"; "developer"]
                      Demo.presets Demo.no_faults))
    = Some "No current layout file to backup.".
Proof.
  apply and_witness; [side|].
  intros (Hc & Hl & Hr & Hm & Hf & Hn & Hd & Ht & Hs & He).
  exact (apply_first_time "switch_layout.py" "apply" "developer" [] Demo.presets
           Demo.no_faults Demo.config Demo.layouts Demo.developer
           "developer_layout.json" _ _ _ Hc Hl Hr Hm Hf Hn Hd Ht Hs He).
Defined.
